(** * mssql_mcp_server: configuration, identifier validation and the
      query/serialisation pipeline

    A shallow embedding of [src/mssql_mcp_server/server.py] and
    [src/mssql_mcp_server/server_jumbos.py].  The two modules hold textually
    identical copies of [validate_table_name], [get_db_config],
    [execute_sql], [count_user_logins] and [ping]; each is embedded once.
    [report_trial_balance_by_seg_ref] exists only in [server.py],
    [list_sql_tables] and [read_table_preview] only in [server_jumbos.py].

    Conventions of the embedding:
    - Python [str] is [string], held as its UTF-8 bytes (outside ASCII no
      byte is a word character; [int] decodes what it is given);
    - [os.environ] is a [gmap string string], the configuration dictionary a
      [gmap string pyval];
    - the database driver is a record of answers ([db]); every call made to
      it is recorded in a trace of [event]s, so that what the code sends and
      in which order is part of an operation's result;
    - a Python exception is a value of [config_error] (raised by
      [get_db_config], outside every [try]) or of [exn] (raised inside a
      [try] block); calls to [logger] have no effect on results and are left
      out. *)

From Stdlib Require Import ZArith String Ascii List Lia DecimalString.
From Stdlib Require DecimalPos.
From stdpp Require Import base option list gmap strings.

Local Open Scope string_scope.
Local Open Scope Z_scope.

(** ** Python text primitives *)

Module PyStr.

(** [sep.join(xs)] *)
Fixpoint join (sep : string) (xs : list string) : string :=
  match xs with
  | [] => ""
  | [x] => x
  | x :: rest => x +:+ sep +:+ join sep rest
  end.

(** [s.split(sep)] for a one-character separator; the result is never
    empty, hence the unreachable last case. *)
Fixpoint split (sep : ascii) (s : string) : list string :=
  match s with
  | "" => [""]
  | String c s' =>
      if Ascii.eqb c sep then "" :: split sep s'
      else match split sep s' with
           | h :: t => String c h :: t
           | [] => [String c ""]
           end
  end.

(** [s.startswith(p)] *)
Definition startswith (p s : string) : bool := String.prefix p s.

(** [s.replace(old, "")] for a non-empty [old]: every non-overlapping
    occurrence, found from the left, is dropped.  [skip] counts the
    characters of the current occurrence still to be dropped. *)
Fixpoint remove_from (old : string) (skip : nat) (s : string) : string :=
  match s with
  | "" => ""
  | String c s' =>
      match skip with
      | S k => remove_from old k s'
      | O =>
          if String.prefix old s
          then remove_from old (Nat.pred (String.length old)) s'
          else String c (remove_from old O s')
      end
  end.

Definition remove_all (old s : string) : string := remove_from old O s.

(** [s.lower()] on ASCII letters.  The only use is a comparison with
    ["true"]; no character outside ASCII lower-cases to one of t, r, u, e,
    so leaving the other characters alone does not change that test. *)
Definition lower_char (c : ascii) : ascii :=
  let n := N_of_ascii c in
  if ((65 <=? n) && (n <=? 90))%N then ascii_of_N (n + 32) else c.

Fixpoint lower (s : string) : string :=
  match s with
  | "" => ""
  | String c s' => String (lower_char c) (lower s')
  end.

(** [str(n)] for an [int]. *)
Definition str_of_int (z : Z) : string := NilZero.string_of_int (Z.to_int z).

(** *** [int(text)] in base ten

    [int] first rewrites the text: a character below 127 is kept, a white
    space character beyond ASCII becomes a space, a decimal digit of any
    script becomes the ASCII digit of its value, and any other character
    makes the text invalid.  What is left is read as white space (tab, line
    feed, vertical tab, form feed, carriage return, space) around an
    optional sign and a run of digits in which single underscores may
    separate digits; a run of more than [int_max_str_digits] digits is
    refused.  Every failure is the same [ValueError] for the caller, so the
    result is an [option].

    A text is held as its UTF-8 bytes, so the rewriting decodes it: a byte
    sequence that is not well-formed UTF-8 stands for characters that are
    neither spaces nor digits.  The character tables are those of
    CPython 3.11 (Unicode 14.0), the digit limit is its default. *)
Definition is_space (c : ascii) : bool :=
  let n := N_of_ascii c in
  (((9 <=? n) && (n <=? 13)) || (n =? 32))%N.

Definition digit_of (c : ascii) : option Z :=
  let n := N_of_ascii c in
  if ((48 <=? n) && (n <=? 57))%N then Some (Z.of_N (n - 48)) else None.

(** The white space characters beyond ASCII, by code point. *)
Definition unicode_spaces : list N :=
  [133; 160; 5760; 8192; 8193; 8194; 8195; 8196; 8197; 8198; 8199; 8200;
   8201; 8202; 8232; 8233; 8239; 8287; 12288]%N.

(** The digit zero of every script with decimal digits beyond ASCII; the
    nine code points after each are its digits one to nine. *)
Definition decimal_zeros : list N :=
  [1632; 1776; 1984; 2406; 2534; 2662; 2790; 2918; 3046; 3174; 3302; 3430;
   3558; 3664; 3792; 3872; 4160; 4240; 6112; 6160; 6470; 6608; 6784; 6800;
   6992; 7088; 7232; 7248; 42528; 43216; 43264; 43472; 43504; 43600; 44016;
   65296; 66720; 68912; 69734; 69872; 69942; 70096; 70384; 70736; 70864;
   71248; 71360; 71472; 71904; 72016; 72784; 73040; 73120; 92768; 92864;
   93008; 120782; 120792; 120802; 120812; 120822; 123200; 123632; 125264;
   130032]%N.

(** What the rewriting puts for the character of code point [cp] >= 127. *)
Definition ascii_for (cp : N) : option ascii :=
  if existsb (N.eqb cp) unicode_spaces then Some " "%char
  else
    match List.find (fun z => (z <=? cp) && (cp <? z + 10))%N decimal_zeros with
    | Some z => Some (ascii_of_N (48 + (cp - z)))
    | None => None
    end.

(** The rewriting, byte by byte.  [pending] is the number of continuation
    bytes the current character still needs, [acc] what was decoded of it,
    [lowest] the smallest code point its length may encode. *)
Fixpoint to_ascii (pending : nat) (acc lowest : N) (s : string)
  : option string :=
  match s with
  | "" => match pending with O => Some "" | S _ => None end
  | String c s' =>
      let b := N_of_ascii c in
      match pending with
      | O =>
          if (b <? 127)%N then String c <$> to_ascii 0 0 0 s'
          else if ((194 <=? b) && (b <=? 223))%N
               then to_ascii 1 (b - 192) 128 s'
          else if ((224 <=? b) && (b <=? 239))%N
               then to_ascii 2 (b - 224) 2048 s'
          else if ((240 <=? b) && (b <=? 244))%N
               then to_ascii 3 (b - 240) 65536 s'
          else None
      | S k =>
          if ((128 <=? b) && (b <=? 191))%N then
            let cp := (acc * 64 + (b - 128))%N in
            match k with
            | O =>
                if (lowest <=? cp)%N then
                  match ascii_for cp with
                  | Some a => String a <$> to_ascii 0 0 0 s'
                  | None => None
                  end
                else None
            | S _ => to_ascii k cp lowest s'
            end
          else None
      end
  end.

Fixpoint lstrip (s : string) : string :=
  match s with
  | String c s' => if is_space c then lstrip s' else s
  | "" => ""
  end.

Fixpoint rstrip (s : string) : string :=
  match s with
  | "" => ""
  | String c s' =>
      match rstrip s' with
      | "" => if is_space c then "" else String c ""
      | r => String c r
      end
  end.

(** [after_digit] tells whether the previous character was a digit: an
    underscore is legal only there, and the text may end only there. *)
Fixpoint digits (acc : Z) (after_digit : bool) (s : string) : option Z :=
  match s with
  | "" => if after_digit then Some acc else None
  | String c s' =>
      match digit_of c with
      | Some d => digits (10 * acc + d) true s'
      | None =>
          if Ascii.eqb c "_" && after_digit then digits acc false s'
          else None
      end
  end.

(** The number of digit characters, underscores left out. *)
Fixpoint count_digits (s : string) : N :=
  match s with
  | "" => 0%N
  | String c s' =>
      ((match digit_of c with Some _ => 1 | None => 0 end) + count_digits s')%N
  end.

Definition int_max_str_digits : N := 4300.

(** The digits after the sign. *)
Definition unsigned (r : string) : option Z :=
  if (count_digits r <=? int_max_str_digits)%N then digits 0 false r
  else None.

Definition int_of_str (text : string) : option Z :=
  match to_ascii 0 0 0 text with
  | None => None
  | Some rewritten =>
      match rstrip (lstrip rewritten) with
      | String "+" r => unsigned r
      | String "-" r => Z.opp <$> unsigned r
      | r => unsigned r
      end
  end.

(** [needle in hay] *)
Fixpoint contains (needle hay : string) : bool :=
  String.prefix needle hay ||
  match hay with
  | "" => false
  | String _ hay' => contains needle hay'
  end.

End PyStr.

(** ** The fragment of [re] used by [validate_table_name] *)

Module Re.

Inductive regex : Type :=
| Bol                                   (* ^ *)
| Eol                                   (* $ *)
| Lit (c : ascii)                       (* an escaped literal, as in \. *)
| ClassPlus (cls : ascii -> bool)       (* [...]+ *)
| Seq (r1 r2 : regex)
| Opt (r : regex).                      (* (...)? *)

(** [ [...]+ ]: greedy, giving characters back one at a time when the rest
    of the pattern fails.  [k] is the rest of the pattern, applied to the
    position reached and to the text left. *)
Fixpoint class_plus (cls : ascii -> bool) (pos : nat) (s : string)
         (k : nat -> string -> bool) : bool :=
  match s with
  | "" => false
  | String c s' =>
      if cls c then class_plus cls (S pos) s' k || k (S pos) s' else false
  end.

(** Without [re.MULTILINE], [$] holds at the end of the text and just
    before a line feed that ends the text. *)
Definition at_eol (s : string) : bool :=
  match s with
  | "" => true
  | String c "" => Ascii.eqb c "010"
  | _ => false
  end.

Fixpoint run (r : regex) (pos : nat) (s : string)
         (k : nat -> string -> bool) : bool :=
  match r with
  | Bol => Nat.eqb pos 0 && k pos s
  | Eol => at_eol s && k pos s
  | Lit c =>
      match s with
      | String c' s' => Ascii.eqb c' c && k (S pos) s'
      | "" => false
      end
  | ClassPlus cls => class_plus cls pos s k
  | Seq r1 r2 => run r1 pos s (fun pos' s' => run r2 pos' s' k)
  | Opt r1 => run r1 pos s k || k pos s
  end.

(** [re.match(r, s)] seen as a truth value: a match anchored at the start
    of [s], which need not reach its end. *)
Definition re_match (r : regex) (s : string) : bool :=
  run r 0%nat s (fun _ _ => true).

(** [[a-zA-Z0-9_]] *)
Definition word_char (c : ascii) : bool :=
  let n := N_of_ascii c in
  (((97 <=? n) && (n <=? 122)) || ((65 <=? n) && (n <=? 90))
   || ((48 <=? n) && (n <=? 57)) || (n =? 95))%N.

End Re.

(** ** Exceptions *)

(** Raised inside a [try] block; [exn_str] is [str(e)]. *)
Inductive exn : Type :=
| ValueError (msg : string)
| TypeError (msg : string)
| IndexError (msg : string)
| DriverError (msg : string).   (* any exception of pymssql, with its text *)

Definition exn_str (e : exn) : string :=
  match e with
  | ValueError m | TypeError m | IndexError m | DriverError m => m
  end.

(** ** [validate_table_name] *)

(** [r'^[a-zA-Z0-9_]+(\.[a-zA-Z0-9_]+)?$'] *)
Definition table_name_pattern : Re.regex :=
  Re.Seq Re.Bol
    (Re.Seq (Re.ClassPlus Re.word_char)
       (Re.Seq (Re.Opt (Re.Seq (Re.Lit ".") (Re.ClassPlus Re.word_char)))
          Re.Eol)).

Definition validate_table_name (table_name : string) : exn + string :=
  if negb (Re.re_match table_name_pattern table_name) then
    inl (ValueError ("Invalid table name: " +:+ table_name))
  else
    let parts := PyStr.split "." table_name in
    match parts with
    | [p0; p1] => inr ("[" +:+ p0 +:+ "].[" +:+ p1 +:+ "]")
    | _ => inr ("[" +:+ table_name +:+ "]")
    end.

(** ** Values *)

(** What the configuration dictionary holds. *)
Inductive pyval : Type :=
| VNone
| VStr (s : string)
| VInt (z : Z).

Global Instance pyval_inhabited : Inhabited pyval := populate VNone.

(** Truth value of an object, as [not x] and [all] use it. *)
Definition truthy (v : pyval) : bool :=
  match v with
  | VNone => false
  | VStr s => negb (String.eqb s "")
  | VInt z => negb (z =? 0)
  end.

(** A cell of a fetched row, or a bound parameter.  [SOther] stands for a
    value of any other driver type (decimal, date, float, bytes ...) and
    carries the text [str] gives for it. *)
Inductive scalar : Type :=
| SNone
| SBool (b : bool)
| SInt (z : Z)
| SStr (s : string)
| SOther (text : string).

(** [str(x)] *)
Definition py_str (x : scalar) : string :=
  match x with
  | SNone => "None"
  | SBool true => "True"
  | SBool false => "False"
  | SInt z => PyStr.str_of_int z
  | SStr s => s
  | SOther text => text
  end.

Definition nl : string := String "010" "".

(** ** [get_db_config] *)

(** The two [ValueError]s [get_db_config] can raise: its own, with the
    message it was built with, and the one of [int] applied to [text]. *)
Inductive config_error : Type :=
| ConfigValueError (msg : string)
| PortValueError (text : string).

Section Config.

Variable env : gmap string string.

(** [os.getenv(name)] and [os.getenv(name, default)] *)
Definition getenv (name : string) : pyval :=
  match env !! name with
  | Some s => VStr s
  | None => VNone
  end.

Definition getenv_or (name fallback : string) : string :=
  default fallback (env !! name).

Definition use_windows_auth : bool :=
  String.eqb (PyStr.lower (getenv_or "MSSQL_WINDOWS_AUTH" "false")) "true".

Definition resolved_server : string :=
  let server := getenv_or "MSSQL_SERVER" "localhost" in
  if PyStr.startswith "(localdb)\" server
  then ".\" +:+ PyStr.remove_all "(localdb)\" server
  else server.

Definition get_db_config : config_error + gmap string pyval :=
  let port_text := getenv_or "MSSQL_PORT" "1433" in
  match PyStr.int_of_str port_text with
  | None => inl (PortValueError port_text)
  | Some port =>
      let config : gmap string pyval :=
        <["port" := VInt port]> $
        <["database" := getenv "MSSQL_DATABASE"]> $
        <["password" := getenv "MSSQL_PASSWORD"]> $
        <["user" := getenv "MSSQL_USER"]> $
        <["server" := VStr resolved_server]> ∅ in
      if use_windows_auth then
        if negb (truthy (config !!! "database")) then
          inl (ConfigValueError "Missing required database configuration")
        else
          inr (delete "password" (delete "user" config))
      else
        if negb (forallb truthy [config !!! "user"; config !!! "password";
                                 config !!! "database"]) then
          inl (ConfigValueError "Missing required database configuration")
        else
          inr config
  end.

End Config.

(** ** The database driver *)

(** What a cursor holds once [execute] has returned: the column names of
    [cursor.description] ([None] when the statement produced no result
    set), what fetching gives (rows, or the text of the exception raised),
    what [commit] does, and [rowcount]. *)
Record cursor_data : Type := {
  description : option (list string);
  fetch_result : string + list (list scalar);
  commit_result : option string;
  rowcount : Z
}.

(** The server as the code sees it: [connect] raises (with that text) or
    not, [execute] raises or leaves a cursor state.  [conn.cursor()],
    [cursor.close()] and [conn.close()] are taken never to raise. *)
Record db : Type := {
  connect_result : gmap string pyval -> option string;
  execute_result : string -> option (list scalar) -> string + cursor_data
}.

(** A call made to the driver; [EConnect] also tells whether a connection
    was opened. *)
Inductive event : Type :=
| EConnect (config : gmap string pyval) (opened : bool)
| ECursor
| EExecute (sql : string) (params : option (list scalar))
| EFetchall
| EFetchone
| ECommit
| ECursorClose
| EConnClose.

(** The body of a [try] block: the driver calls made so far, and either the
    exception that stopped it or its value. *)
Definition body (A : Type) : Type := (list event * (exn + A))%type.

Global Instance body_ret : MRet body := fun A a => ([], inr a).

Global Instance body_bind : MBind body := fun A B f m =>
  match m with
  | (t, inl e) => (t, inl e)
  | (t, inr a) => let '(t', r) := f a in ((t ++ t')%list, r)
  end.

Definition raise {A : Type} (e : exn) : body A := ([], inl e).

Definition call {A : Type} (ev : event) (answer : exn + A) : body A :=
  ([ev], answer).

Definition or_driver_error {A : Type} (r : string + A) : exn + A :=
  match r with
  | inl msg => inl (DriverError msg)
  | inr a => inr a
  end.

Section Driver.

Variable d : db.

Definition connect (config : gmap string pyval) : body unit :=
  match connect_result d config with
  | Some msg => call (EConnect config false) (inl (DriverError msg))
  | None => call (EConnect config true) (inr tt)
  end.

Definition cursor : body unit := call ECursor (inr tt).

Definition execute (sql : string) (params : option (list scalar))
  : body cursor_data :=
  call (EExecute sql params) (or_driver_error (execute_result d sql params)).

Definition fetchall (cur : cursor_data) : body (list (list scalar)) :=
  call EFetchall (or_driver_error (fetch_result cur)).

Definition fetchone (cur : cursor_data) : body (option (list scalar)) :=
  call EFetchone
       (match fetch_result cur with
        | inl msg => inl (DriverError msg)
        | inr rows => inr (head rows)
        end).

Definition commit (cur : cursor_data) : body unit :=
  call ECommit
       (match commit_result cur with
        | Some msg => inl (DriverError msg)
        | None => inr tt
        end).

Definition cursor_close : body unit := call ECursorClose (inr tt).
Definition conn_close : body unit := call EConnClose (inr tt).

End Driver.

(** [[desc[0] for desc in cursor.description]] *)
Definition column_names (cur : cursor_data) : body (list string) :=
  match description cur with
  | Some names => mret names
  | None => raise (TypeError "'NoneType' object is not iterable")
  end.

(** [if cursor.description:] *)
Definition has_description (cur : cursor_data) : bool :=
  match description cur with
  | Some (_ :: _) => true
  | _ => false
  end.

(** ["\n".join([",".join(columns)] + result)] with
    [result = [",".join(map(str, row)) for row in rows]], the expression
    [execute_sql], [report_trial_balance_by_seg_ref] and
    [read_table_preview] share. *)
Definition csv_text (columns : list string) (rows : list (list scalar))
  : string :=
  let result := map (fun row => PyStr.join "," (map py_str row)) rows in
  PyStr.join nl ([PyStr.join "," columns] ++ result)%list.

(** ** Operations *)

(** How a call of an operation ends: with the string it returns, or with an
    exception leaving the operation. *)
Inductive outcome : Type :=
| Returned (s : string)
| Raised (e : config_error).

(** [try: ... except Exception as e: return handler(e)] *)
Definition try_except (m : body string) (handler : exn -> string)
  : list event * outcome :=
  match m with
  | (t, inr s) => (t, Returned s)
  | (t, inl e) => (t, Returned (handler e))
  end.

Definition report_query : string :=
  "
    WITH TransactionData AS (
        SELECT 
            je.transaction_date AS [Date],
            je.journal_entry_id AS [Journal Entry],
            je.source_document_type AS [Doc. Type],
            je.source_document_id AS [Source Doc ID],
            jed.reference_number AS [Reference #],
            jed.source_reference_number AS [Source Ref #],
            jed.description AS [Description],
            je.backdated AS [Backdated],
            CASE WHEN jed.amount > 0 THEN jed.amount ELSE 0 END AS [Debits],
            CASE WHEN jed.amount < 0 THEN ABS(jed.amount) ELSE 0 END AS [Credits]
        FROM [Prologue90].[dbo].[gl_journal_entry] je
        INNER JOIN [Prologue90].[dbo].[gl_journal_entry_detail] jed
            ON je.journal_entry_id = jed.journal_entry_id
        WHERE 
            je.transaction_date BETWEEN %s AND %s
            AND jed.account_id LIKE %s
    )
    SELECT 
        [Date],
        [Journal Entry],
        [Doc. Type],
        [Source Doc ID],
        [Reference #],
        [Source Ref #],
        [Description],
        [Backdated],
        [Debits],
        [Credits],
        SUM([Debits] - [Credits]) OVER (ORDER BY [Date], [Journal Entry]) AS [Ending Balance]
    FROM TransactionData
    ORDER BY [Date], [Journal Entry];
    ".

Definition count_sql : string :=
  "
    SELECT COUNT(*) AS appearances
    FROM am_user_security_log
    WHERE user_id = %s
    AND YEAR(date_time) = %s;
    ".

Definition tables_sql : string :=
  "
    SELECT TABLE_SCHEMA, TABLE_NAME
    FROM INFORMATION_SCHEMA.TABLES
    WHERE TABLE_TYPE = 'BASE TABLE'
    ORDER BY TABLE_SCHEMA, TABLE_NAME;
    ".

(** The [year] argument is typed [Union[str, int]]. *)
Inductive str_or_int : Type :=
| AStr (s : string)
| AInt (z : Z).

(** [str(year)] *)
Definition str_of_arg (a : str_or_int) : string :=
  match a with
  | AStr s => s
  | AInt z => PyStr.str_of_int z
  end.

(** A value computed without the driver, or the exception it raises. *)
Definition lift {A : Type} (r : exn + A) : body A := ([], r).

(** [cursor.fetchone()[0]] once [fetchone] has answered. *)
Definition first_cell (row : option (list scalar)) : body scalar :=
  match row with
  | None => raise (TypeError "'NoneType' object is not subscriptable")
  | Some [] => raise (IndexError "tuple index out of range")
  | Some (c :: _) => mret c
  end.

(** [schema, name = row] (wording of the messages as in CPython 3.13) *)
Definition unpack2 (row : list scalar) : body (scalar * scalar) :=
  match row with
  | [schema; name] => mret (schema, name)
  | [] | [_] =>
      raise (ValueError ("not enough values to unpack (expected 2, got "
                         +:+ PyStr.str_of_int (Z.of_nat (length row)) +:+ ")"))
  | _ => raise (ValueError "too many values to unpack (expected 2)")
  end.

(** The loop [for schema, name in tables: lines.append(f"{schema},{name}")] *)
Fixpoint table_lines (tables : list (list scalar)) : body (list string) :=
  match tables with
  | [] => mret []
  | row :: rest =>
      '(schema, name) ← unpack2 row;
      lines ← table_lines rest;
      mret ((py_str schema +:+ "," +:+ py_str name) :: lines)
  end.

Section Operations.

Variable env : gmap string string.
Variable d : db.

Definition execute_sql_body (config : gmap string pyval) (query : string)
  : body string :=
  connect d config;;
  cursor;;
  cur ← execute d query None;
  output ←
    (if has_description cur then
       columns ← column_names cur;
       rows ← fetchall cur;
       mret (csv_text columns rows)
     else
       commit cur;;
       let affected_rows := rowcount cur in
       mret ("Query executed successfully. Rows affected: "
             +:+ PyStr.str_of_int affected_rows));
  cursor_close;;
  conn_close;;
  mret output.

Definition execute_sql (query : string) : list event * outcome :=
  match get_db_config env with
  | inl e => ([], Raised e)
  | inr config =>
      try_except (execute_sql_body config query)
                 (fun e => "Error executing query: " +:+ exn_str e)
  end.

Definition report_body (config : gmap string pyval)
           (start_date end_date account_id : string) : body string :=
  connect d config;;
  cursor;;
  cur ← execute d report_query
          (Some [SStr start_date; SStr end_date; SStr account_id]);
  columns ← column_names cur;
  rows ← fetchall cur;
  let output := csv_text columns rows in
  cursor_close;;
  conn_close;;
  mret output.

Definition report_trial_balance_by_seg_ref
           (start_date end_date account_id : string) : list event * outcome :=
  match get_db_config env with
  | inl e => ([], Raised e)
  | inr config =>
      try_except (report_body config start_date end_date account_id)
                 (fun e => "Error: " +:+ exn_str e)
  end.

Definition count_body (config : gmap string pyval) (user_id year : string)
  : body string :=
  connect d config;;
  cursor;;
  cur ← execute d count_sql (Some [SStr user_id; SStr year]);
  row ← fetchone cur;
  count ← first_cell row;
  cursor_close;;
  conn_close;;
  mret (user_id +:+ " appeared " +:+ py_str count +:+ " times in " +:+ year).

Definition count_user_logins (user_id : string) (year : str_or_int)
  : list event * outcome :=
  let year := str_of_arg year in
  match get_db_config env with
  | inl e => ([], Raised e)
  | inr config =>
      try_except (count_body config user_id year)
                 (fun e => "Error: " +:+ exn_str e)
  end.

Definition list_body (config : gmap string pyval) : body string :=
  connect d config;;
  cursor;;
  cur ← execute d tables_sql None;
  tables ← fetchall cur;
  cursor_close;;
  conn_close;;
  match tables with
  | [] => mret "No tables found in this database."
  | _ =>
      lines ← table_lines tables;
      mret (PyStr.join nl ("Schema,Table" :: lines))
  end.

Definition list_sql_tables : list event * outcome :=
  match get_db_config env with
  | inl e => ([], Raised e)
  | inr config =>
      try_except (list_body config)
                 (fun e => "Error listing tables: " +:+ exn_str e)
  end.

Definition preview_body (config : gmap string pyval) (table_name : string)
  : body string :=
  safe_table ← lift (validate_table_name table_name);
  connect d config;;
  cursor;;
  cur ← execute d ("SELECT TOP 100 * FROM " +:+ safe_table) None;
  columns ← column_names cur;
  rows ← fetchall cur;
  cursor_close;;
  conn_close;;
  match rows with
  | [] => mret "No data found in this table."
  | _ => mret (csv_text columns rows)
  end.

Definition read_table_preview (table_name : string) : list event * outcome :=
  match get_db_config env with
  | inl e => ([], Raised e)
  | inr config =>
      try_except (preview_body config table_name)
                 (fun e => "Error reading table '" +:+ table_name +:+ "': "
                           +:+ exn_str e)
  end.

Definition ping : list event * outcome := ([], Returned "pong").

End Operations.

(** ** Sample environments and servers *)

Definition failure_message : string :=
  "Missing required database configuration".

(** Credentials and database set, everything else left to its default. *)
Definition env_credentials : gmap string string :=
  <["MSSQL_DATABASE" := "Prologue90"]> $
  <["MSSQL_PASSWORD" := "secret"]> $
  <["MSSQL_USER" := "sa"]> ∅.

Definition config_credentials : gmap string pyval :=
  <["port" := VInt 1433]> $
  <["database" := VStr "Prologue90"]> $
  <["password" := VStr "secret"]> $
  <["user" := VStr "sa"]> $
  <["server" := VStr "localhost"]> ∅.

(** Integrated authentication with a database. *)
Definition env_integrated : gmap string string :=
  <["MSSQL_WINDOWS_AUTH" := "True"]> $
  <["MSSQL_DATABASE" := "Prologue90"]> ∅.

(** Integrated authentication requested, no database. *)
Definition env_integrated_no_database : gmap string string :=
  <["MSSQL_WINDOWS_AUTH" := "true"]> ∅.

(** Credentialed authentication, the password missing. *)
Definition env_no_password : gmap string string :=
  <["MSSQL_DATABASE" := "Prologue90"]> $
  <["MSSQL_USER" := "sa"]> ∅.

(** A port outside 1..65535. *)
Definition env_port_70000 : gmap string string :=
  <["MSSQL_PORT" := "70000"]> env_credentials.

(** A port that is no number, integrated authentication without database. *)
Definition env_port_text : gmap string string :=
  <["MSSQL_PORT" := "default"]> env_integrated_no_database.

(** ** The authentication-mode invariant *)

(** The configuration holds under [key] the non-empty text the environment
    has under [name]. *)
Definition nonempty_from (env : gmap string string) (name : string)
           (cfg : gmap string pyval) (key : string) : Prop :=
  ∃ s, env !! name = Some s ∧ cfg !! key = Some (VStr s) ∧ s ≠ "".

Definition auth_mode_invariant (env : gmap string string)
           (cfg : gmap string pyval) : Prop :=
  if use_windows_auth env then
    nonempty_from env "MSSQL_DATABASE" cfg "database"
    ∧ cfg !! "user" = None ∧ cfg !! "password" = None
  else
    nonempty_from env "MSSQL_USER" cfg "user"
    ∧ nonempty_from env "MSSQL_PASSWORD" cfg "password"
    ∧ nonempty_from env "MSSQL_DATABASE" cfg "database".

(** An environment variable is unset or empty. *)
Definition missing (env : gmap string string) (name : string) : Prop :=
  env !! name = None ∨ env !! name = Some "".

(** The dictionary built by the literal of [get_db_config]. *)
Definition config_literal (env : gmap string string) (port : Z)
  : gmap string pyval :=
  <["port" := VInt port]> $
  <["database" := getenv env "MSSQL_DATABASE"]> $
  <["password" := getenv env "MSSQL_PASSWORD"]> $
  <["user" := getenv env "MSSQL_USER"]> $
  <["server" := VStr (resolved_server env)]> ∅.

(** ** Open connections and cursors along a trace *)










(** The lines after the header, each with the line feed before it. *)
Fixpoint following_lines (rows : list (list scalar)) : string :=
  match rows with
  | [] => ""
  | row :: rest =>
      nl +:+ PyStr.join "," (map py_str row) +:+ following_lines rest
  end.

(** ** Sample servers *)

Definition cursor_of (columns : list string) (rows : list (list scalar))
  : cursor_data :=
  {| description := Some columns; fetch_result := inr rows;
     commit_result := None; rowcount := -1 |}.

(** Every statement succeeds with the same result set. *)
Definition db_answering (columns : list string) (rows : list (list scalar))
  : db :=
  {| connect_result := fun _ => None;
     execute_result := fun _ _ => inr (cursor_of columns rows) |}.


Definition db_two_by_two : db :=
  db_answering ["a"; "b"] [[SInt 1; SInt 2]; [SInt 3; SInt 4]].

Definition db_no_rows : db := db_answering ["id"; "name"] [].

Definition db_three_logins : db := db_answering ["appearances"] [[SInt 3]].

(** ** The identifier syntax in the words of the specification *)

Fixpoint all_chars (cls : ascii -> bool) (s : string) : bool :=
  match s with
  | "" => true
  | String c s' => cls c && all_chars cls s'
  end.

(** A non-empty run of word characters. *)
Definition is_segment (s : string) : bool :=
  negb (String.eqb s "") && all_chars Re.word_char s.

(** One segment, or exactly two separated by a dot, and nothing else. *)
Definition strict_identifier (s : string) : bool :=
  match PyStr.split "." s with
  | [a] => is_segment a
  | [a; b] => is_segment a && is_segment b
  | _ => false
  end.

(** Each segment in brackets, the segments joined by a dot. *)
Definition bracket_quoted (s : string) : string :=
  PyStr.join "." (map (fun seg => "[" +:+ seg +:+ "]") (PyStr.split "." s)).

(** ** The order of the driver calls *)

(** Where a call stands in its dealings with the driver. *)
Inductive phase : Type :=
| Idle            (* nothing done yet *)
| Connected       (* the connection is open *)
| WithCursor      (* a cursor was obtained *)
| Executed        (* the statement was sent *)
| Fetched         (* rows were fetched, or the statement was committed *)
| CursorClosed
| Finished.       (* cursor and connection closed *)

(** The traces of one orderly call: one connection attempt; when it opened
    a connection, one cursor and one statement, at most one fetch or commit,
    then the cursor closed and at once the connection closed.  A trace may
    stop early only before connecting, after a refused connection, after the
    statement, or after the fetch or commit. *)
Fixpoint protocol (p : phase) (t : list event) : bool :=
  match t with
  | [] =>
      match p with
      | Idle | Executed | Fetched | Finished => true
      | Connected | WithCursor | CursorClosed => false
      end
  | ev :: t' =>
      match p, ev with
      | Idle, EConnect _ true => protocol Connected t'
      | Idle, EConnect _ false => match t' with [] => true | _ => false end
      | Connected, ECursor => protocol WithCursor t'
      | WithCursor, EExecute _ _ => protocol Executed t'
      | Executed, (EFetchall | EFetchone | ECommit) => protocol Fetched t'
      | Fetched, ECursorClose => protocol CursorClosed t'
      | CursorClosed, EConnClose => protocol Finished t'
      | _, _ => false
      end
  end.

(** [ECommit] occurs in the trace. *)
Definition commits (t : list event) : bool :=
  existsb (fun ev => match ev with ECommit => true | _ => false end) t.

(** The statements sent along a trace, with their bound parameters. *)
Fixpoint statements (t : list event)
  : list (string * option (list scalar)) :=
  match t with
  | [] => []
  | EExecute sql params :: t' => (sql, params) :: statements t'
  | _ :: t' => statements t'
  end.

(** A row as the listing statement yields them: two cells. *)
Definition is_pair (row : list scalar) : bool :=
  match row with
  | [_; _] => true
  | _ => false
  end.

(** How often [c] occurs in [s]. *)
Fixpoint count_char (c : ascii) (s : string) : nat :=
  match s with
  | "" => O
  | String c' s' => (if Ascii.eqb c' c then 1 else 0) + count_char c s'
  end.

(** ** More sample environments and servers *)

(** The connection is refused. *)
Definition db_unreachable (msg : string) : db :=
  {| connect_result := fun _ => Some msg;
     execute_result := fun _ _ => inl "unused" |}.

(** Every statement succeeds without producing a result set. *)
Definition db_updating (affected : Z) : db :=
  {| connect_result := fun _ => None;
     execute_result := fun _ _ =>
       inr {| description := None; fetch_result := inl "no result set";
              commit_result := None; rowcount := affected |} |}.

Definition db_two_tables : db :=
  db_answering ["TABLE_SCHEMA"; "TABLE_NAME"]
    [[SStr "dbo"; SStr "accounts"]; [SStr "dbo"; SStr "users"]].

(** The statement an operation sends once its configuration is resolved and
    the connection opened; nothing otherwise. *)
Definition sent (env : gmap string string) (d : db)
           (st : string * option (list scalar))
  : list (string * option (list scalar)) :=
  match get_db_config env with
  | inl _ => []
  | inr config =>
      match connect_result d config with
      | Some _ => []
      | None => [st]
      end
  end.

(** The number a run of decimal digits denotes, read from the left with
    [acc] as the value of the digits already read. *)
Fixpoint uint_value (acc : Z) (d : Decimal.uint) : Z :=
  match d with
  | Decimal.Nil => acc
  | Decimal.D0 d' => uint_value (10 * acc + 0) d'
  | Decimal.D1 d' => uint_value (10 * acc + 1) d'
  | Decimal.D2 d' => uint_value (10 * acc + 2) d'
  | Decimal.D3 d' => uint_value (10 * acc + 3) d'
  | Decimal.D4 d' => uint_value (10 * acc + 4) d'
  | Decimal.D5 d' => uint_value (10 * acc + 5) d'
  | Decimal.D6 d' => uint_value (10 * acc + 6) d'
  | Decimal.D7 d' => uint_value (10 * acc + 7) d'
  | Decimal.D8 d' => uint_value (10 * acc + 8) d'
  | Decimal.D9 d' => uint_value (10 * acc + 9) d'
  end.

(** The six variables [get_db_config] depends on. *)
Definition config_variables : list string :=
  ["MSSQL_SERVER"; "MSSQL_USER"; "MSSQL_PASSWORD"; "MSSQL_DATABASE";
   "MSSQL_PORT"; "MSSQL_WINDOWS_AUTH"].

(** An environment variable is set to a non-empty text. *)
Definition present (env : gmap string string) (name : string) : Prop :=
  ∃ s, env !! name = Some s ∧ s ≠ "".

(** Environments for the port and the LocalDB host. *)
Definition env_port_negative : gmap string string :=
  <["MSSQL_PORT" := "-5"]> env_credentials.

Definition env_localdb : gmap string string :=
  <["MSSQL_SERVER" := "(localdb)\MSSQLLocalDB"]> env_credentials.

Definition env_encrypt : gmap string string :=
  <["MSSQL_ENCRYPT" := "true"]> env_credentials.

Definition env_integrated_with_user : gmap string string :=
  <["MSSQL_USER" := "sa"]> env_integrated.

(** [n * c], the text of [n] characters [c]. *)
Fixpoint repeat_char (n : nat) (c : ascii) : string :=
  match n with
  | O => ""
  | S n' => String c (repeat_char n' c)
  end.

(** The port written in full-width digits. *)
Definition env_port_fullwidth : gmap string string :=
  <["MSSQL_PORT" := "１４３３"]> env_credentials.

(** * Properties *)

(** ** [validate_table_name] on the examples of the specification *)

Example validate_qualified :
  validate_table_name "dbo.accounts" = inr "[dbo].[accounts]".
Proof. reflexivity. Qed.

Example validate_injection :
  validate_table_name "accounts; DROP TABLE x"
  = inl (ValueError "Invalid table name: accounts; DROP TABLE x").
Proof. reflexivity. Qed.

(** ** Facts about [get_db_config] *)

Section ConfigFacts.

Variable env : gmap string string.

Lemma truthy_getenv name :
  truthy (getenv env name) = true ↔ ∃ s, env !! name = Some s ∧ s ≠ "".
Proof.
  unfold getenv. destruct (env !! name) as [s|]; simpl.
  - rewrite negb_true_iff. split.
    + intros H. exists s. split; [done|]. intros ->. discriminate.
    + intros (s' & [= <-] & Hne). by apply String.eqb_neq.
  - split; [done|]. by intros (? & ? & _).
Qed.

Lemma truthy_getenv_missing name :
  missing env name → truthy (getenv env name) = false.
Proof.
  intros Hm. apply not_true_is_false. rewrite truthy_getenv.
  intros (s & Hs & Hne). destruct Hm as [Hm|Hm]; congruence.
Qed.

Lemma literal_database port :
  config_literal env port !! "database" = Some (getenv env "MSSQL_DATABASE").
Proof. unfold config_literal. by simplify_map_eq. Qed.

Lemma literal_user port :
  config_literal env port !! "user" = Some (getenv env "MSSQL_USER").
Proof. unfold config_literal. by simplify_map_eq. Qed.

Lemma literal_password port :
  config_literal env port !! "password" = Some (getenv env "MSSQL_PASSWORD").
Proof. unfold config_literal. by simplify_map_eq. Qed.

Lemma literal_port port : config_literal env port !! "port" = Some (VInt port).
Proof. unfold config_literal. by simplify_map_eq. Qed.

(** [get_db_config], one case per path through the function. *)
Lemma get_db_config_cases :
  get_db_config env =
  match PyStr.int_of_str (getenv_or env "MSSQL_PORT" "1433") with
  | None => inl (PortValueError (getenv_or env "MSSQL_PORT" "1433"))
  | Some port =>
      if use_windows_auth env then
        if truthy (getenv env "MSSQL_DATABASE")
        then inr (delete "password" (delete "user" (config_literal env port)))
        else inl (ConfigValueError failure_message)
      else
        if truthy (getenv env "MSSQL_USER")
           && truthy (getenv env "MSSQL_PASSWORD")
           && truthy (getenv env "MSSQL_DATABASE")
        then inr (config_literal env port)
        else inl (ConfigValueError failure_message)
  end.
Proof.
  unfold get_db_config.
  destruct (PyStr.int_of_str _) as [port|]; [|done].
  fold (config_literal env port).
  rewrite !lookup_total_alt, literal_database, literal_user,
    literal_password. simpl.
  destruct (use_windows_auth env).
  - by destruct (truthy (getenv env "MSSQL_DATABASE")).
  - rewrite andb_true_r, andb_assoc.
    by destruct (truthy _ && truthy _ && truthy _).
Qed.

End ConfigFacts.

(** ** The primitives on sample texts *)

Example int_of_str_samples :
  PyStr.int_of_str "1433" = Some 1433
  ∧ PyStr.int_of_str " +1_000 " = Some 1000
  ∧ PyStr.int_of_str "-42" = Some (-42)
  ∧ PyStr.int_of_str "010" = Some 10
  ∧ PyStr.int_of_str "" = None
  ∧ PyStr.int_of_str "1__0" = None
  ∧ PyStr.int_of_str "1_" = None
  ∧ PyStr.int_of_str "+ 1" = None
  ∧ PyStr.int_of_str "0x10" = None.
Proof. by vm_compute. Qed.

Example split_samples :
  PyStr.split "." "dbo.accounts" = ["dbo"; "accounts"]
  ∧ PyStr.split "." "a.b." = ["a"; "b"; ""]
  ∧ PyStr.split "." "" = [""].
Proof. by vm_compute. Qed.

(** The LocalDB host is rewritten to the local named-instance form. *)
Example resolved_server_localdb :
  resolved_server (<["MSSQL_SERVER" := "(localdb)\MSSQLLocalDB"]> ∅)
  = ".\MSSQLLocalDB"
  ∧ resolved_server ∅ = "localhost".
Proof. by vm_compute. Qed.

(** Integrated authentication: the flag is read without regard to case, and
    the configuration has neither user nor password. *)
Example get_db_config_integrated :
  use_windows_auth env_integrated = true
  ∧ get_db_config env_integrated
    = inr (<["port" := VInt 1433]> $ <["database" := VStr "Prologue90"]> $
           <["server" := VStr "localhost"]> ∅).
Proof. by vm_compute. Qed.

(** Beyond ASCII: decimal digits of other scripts and wide spaces are read,
    other characters and ill-formed bytes are not. *)
Example int_of_str_beyond_ascii :
  PyStr.int_of_str "１４３３" = Some 1433
  ∧ PyStr.int_of_str "١٤٣٣" = Some 1433
  ∧ PyStr.int_of_str "　-1_0 " = Some (-10)
  ∧ PyStr.int_of_str "²" = None
  ∧ PyStr.int_of_str (String "192" (String "177" "")) = None
  ∧ PyStr.int_of_str (String "239" (String "188" "")) = None.
Proof. by vm_compute. Qed.

(** The digit limit: 4300 digits are read, 4301 are refused, leading zeros
    counted. *)
Example int_of_str_digit_limit :
  PyStr.int_of_str (repeat_char 4300 "0") = Some 0
  ∧ PyStr.int_of_str (repeat_char 4301 "0") = None
  ∧ PyStr.int_of_str (String "-" (repeat_char 4301 "1")) = None
  ∧ is_Some (PyStr.int_of_str (repeat_char 4300 "1")).
Proof.
  repeat split; try by vm_compute.
  destruct (PyStr.int_of_str (repeat_char 4300 "1")) eqn:E; [done|].
  vm_compute in E. discriminate E.
Qed.

Example get_db_config_fullwidth_port :
  get_db_config env_port_fullwidth = inr config_credentials.
Proof. by vm_compute. Qed.

(** ** Configuration resolution: authentication mode, messages, port *)

Section ConfigTheorems.

Variable env : gmap string string.

Lemma nonempty_from_literal port name key :
  config_literal env port !! key = Some (getenv env name) →
  truthy (getenv env name) = true →
  nonempty_from env name (config_literal env port) key.
Proof.
  intros Hk (s & Hs & Hne)%truthy_getenv. exists s.
  split; [done|]. split; [|done].
  rewrite Hk. unfold getenv. by rewrite Hs.
Qed.

(** C5. Whenever [get_db_config] returns a configuration, it satisfies the
    authentication-mode invariant: with the integrated-authentication flag
    set, [database] is a non-empty text and the keys [user] and [password]
    are absent; otherwise [user], [password] and [database] are all
    non-empty texts, each the value of its environment variable (so
    resolution cannot succeed when one of them is unset or empty). *)
Theorem get_db_config_auth_mode_invariant (cfg : gmap string pyval) :
  get_db_config env = inr cfg → auth_mode_invariant env cfg.
Proof.
  rewrite get_db_config_cases. unfold auth_mode_invariant.
  destruct (PyStr.int_of_str _) as [port|]; [|done].
  destruct (use_windows_auth env).
  - destruct (truthy (getenv env "MSSQL_DATABASE")) eqn:Hdb; [|done].
    intros [= <-]. split; [|split].
    + destruct (nonempty_from_literal port _ _ (literal_database env port) Hdb)
        as (s & Hs & Hl & Hne).
      exists s. split; [done|]. split; [|done].
      by rewrite !lookup_delete_ne.
    + by rewrite lookup_delete_ne, lookup_delete_eq.
    + by rewrite lookup_delete_eq.
  - destruct (truthy (getenv env "MSSQL_USER")) eqn:Hu; [|done].
    destruct (truthy (getenv env "MSSQL_PASSWORD")) eqn:Hp; [|done].
    destruct (truthy (getenv env "MSSQL_DATABASE")) eqn:Hdb; [|done].
    intros [= <-].
    split; [|split].
    + exact (nonempty_from_literal port _ _ (literal_user env port) Hu).
    + exact (nonempty_from_literal port _ _ (literal_password env port) Hp).
    + exact (nonempty_from_literal port _ _ (literal_database env port) Hdb).
Qed.

(** C8, as the code has it. Once the port text is an integer literal:
    with integrated authentication requested and the database unset or
    empty, and with credentialed authentication and any of user, password
    or database unset or empty, [get_db_config] raises a [ValueError]
    carrying one and the same message,
    "Missing required database configuration". *)
Theorem get_db_config_failure_message (port : Z) :
  PyStr.int_of_str (getenv_or env "MSSQL_PORT" "1433") = Some port →
  (use_windows_auth env = true → missing env "MSSQL_DATABASE" →
   get_db_config env = inl (ConfigValueError failure_message))
  ∧ (use_windows_auth env = false →
     missing env "MSSQL_USER" ∨ missing env "MSSQL_PASSWORD"
     ∨ missing env "MSSQL_DATABASE" →
     get_db_config env = inl (ConfigValueError failure_message)).
Proof.
  intros Hport. rewrite get_db_config_cases, Hport. split.
  - intros -> Hm. by rewrite (truthy_getenv_missing _ _ Hm).
  - intros -> [Hm|[Hm|Hm]]; rewrite (truthy_getenv_missing _ _ Hm);
      by rewrite ?andb_false_r.
Qed.

(** C9, as the code has it. In a configuration [get_db_config] returns,
    [port] is the integer the text of [MSSQL_PORT] denotes (["1433"] when
    the variable is unset), whatever its size; it is 1433 when the variable
    is unset. *)
Theorem get_db_config_port (cfg : gmap string pyval) :
  get_db_config env = inr cfg →
  ∃ port, cfg !! "port" = Some (VInt port)
          ∧ PyStr.int_of_str (getenv_or env "MSSQL_PORT" "1433") = Some port
          ∧ (env !! "MSSQL_PORT" = None → port = 1433).
Proof.
  rewrite get_db_config_cases.
  destruct (PyStr.int_of_str _) as [port|] eqn:Hport; [|done].
  intros Hcfg. exists port. split; [|split; [done|]].
  - destruct (use_windows_auth env).
    + destruct (truthy _); [|done]. injection Hcfg as <-.
      rewrite !lookup_delete_ne by done. apply literal_port.
    + destruct (_ && _); [|done]. injection Hcfg as <-. apply literal_port.
  - intros Hunset. unfold getenv_or in Hport. rewrite Hunset in Hport.
    vm_compute in Hport. congruence.
Qed.

End ConfigTheorems.

Lemma get_db_config_credentials :
  get_db_config env_credentials = inr config_credentials.
Proof. by vm_compute. Qed.

Lemma get_db_config_auth_mode_invariant_witness :
  auth_mode_invariant env_credentials config_credentials.
Proof.
  apply (get_db_config_auth_mode_invariant env_credentials config_credentials).
  exact get_db_config_credentials.
Defined.

Lemma get_db_config_failure_message_witness :
  get_db_config env_integrated_no_database
  = inl (ConfigValueError failure_message)
  ∧ get_db_config env_no_password = inl (ConfigValueError failure_message).
Proof.
  split.
  - refine (proj1 (get_db_config_failure_message
                     env_integrated_no_database 1433 _) _ _);
      [reflexivity | reflexivity | left; reflexivity].
  - refine (proj2 (get_db_config_failure_message env_no_password 1433 _) _ _);
      [reflexivity | reflexivity | right; left; left; reflexivity].
Defined.

(** C8, the claim refuted. The two failures do not carry distinct messages:
    the integrated-authentication failure and the credentialed failure raise
    the very same [ValueError], whose text is neither "missing database" nor
    "missing credentials"; and when the port text is no integer the failure
    is the one of [int], whatever the authentication mode. *)
Lemma get_db_config_messages_not_distinct :
  get_db_config env_integrated_no_database
  = inl (ConfigValueError "Missing required database configuration")
  ∧ get_db_config env_no_password
    = inl (ConfigValueError "Missing required database configuration")
  ∧ get_db_config env_integrated_no_database
    ≠ inl (ConfigValueError "missing database")
  ∧ get_db_config env_no_password ≠ inl (ConfigValueError "missing credentials")
  ∧ get_db_config env_port_text = inl (PortValueError "default").
Proof. by vm_compute. Qed.

Lemma get_db_config_port_witness :
  ∃ port, config_credentials !! "port" = Some (VInt port)
          ∧ PyStr.int_of_str (getenv_or env_credentials "MSSQL_PORT" "1433")
            = Some port
          ∧ (env_credentials !! "MSSQL_PORT" = None → port = 1433).
Proof.
  apply (get_db_config_port env_credentials config_credentials).
  exact get_db_config_credentials.
Defined.

(** C9, the claim refuted. With [MSSQL_PORT=70000] resolution succeeds and
    the resolved port is 70000, outside 1..65535. *)
Lemma get_db_config_port_out_of_range :
  ∃ cfg, get_db_config env_port_70000 = inr cfg
         ∧ cfg !! "port" = Some (VInt 70000)
         ∧ ¬ (1 ≤ 70000 ≤ 65535).
Proof.
  eexists. split; [by vm_compute|]. split; [by vm_compute|]. lia.
Qed.

(** ** Operations *)

(** Unfolds a [try] block down to the answers of the driver. *)
Ltac unfold_body :=
  unfold execute_sql_body, report_body, count_body, list_body, preview_body,
    connect, cursor, execute, fetchall, fetchone, commit, cursor_close,
    conn_close, column_names, first_cell, has_description, lift, call, raise,
    or_driver_error, mbind, body_bind, mret, body_ret.

(** Splits on every answer the code inspects. *)
Ltac run_cases := repeat (case_match; simplify_eq/=); try done.


Lemma try_except_trace m handler : (try_except m handler).1 = m.1.
Proof. by destruct m as [t [e|s]]. Qed.

(** Appending texts. *)
Lemma append_cons c s t : String c s +:+ t = String c (s +:+ t).
Proof. reflexivity. Qed.

Lemma append_empty_r s : s +:+ "" = s.
Proof. induction s as [|c s IH]; [done|]. by rewrite append_cons, IH. Qed.

Lemma append_assoc (a b c : string) : (a +:+ b) +:+ c = a +:+ b +:+ c.
Proof. induction a as [|x a IH]; [done|]. by rewrite !append_cons, IH. Qed.


Section OperationTheorems.

Variable env : gmap string string.
Variable d : db.


(** The loop over the fetched tables makes no driver call and can only
    fail with the [ValueError] of an unpacking. *)
Lemma table_lines_pure tables :
  match table_lines tables with
  | (t, inr _) | (t, inl (ValueError _)) => t = []
  | _ => False
  end.
Proof.
  induction tables as [|row rest IH]; [done|].
  simpl. unfold unpack2.
  destruct row as [|a [|b [|c row]]]; try done.
  unfold mbind, body_bind, mret, body_ret. simpl.
  destruct (table_lines rest) as [t [[]|lines]]; simpl in *; by subst.
Qed.


End OperationTheorems.

(** ** Text lemmas *)

Lemma prefix_append n b : String.prefix n (n +:+ b) = true.
Proof.
  induction n as [|c n IH]; [by destruct b|].
  rewrite append_cons. simpl. by destruct (ascii_dec c c).
Qed.

Lemma contains_prefix n hay : String.prefix n hay = true → PyStr.contains n hay = true.
Proof. intros H. destruct hay; cbn [PyStr.contains]; by rewrite H. Qed.

Lemma contains_append n a b : PyStr.contains n (a +:+ n +:+ b) = true.
Proof.
  induction a as [|c a IH].
  - change ("" +:+ n +:+ b) with (n +:+ b).
    apply contains_prefix, prefix_append.
  - rewrite append_cons. cbn [PyStr.contains]. rewrite IH. apply orb_true_r.
Qed.

Lemma join_following sep_rows header :
  PyStr.join nl
    (header :: map (fun row => PyStr.join "," (map py_str row)) sep_rows)
  = header +:+ following_lines sep_rows.
Proof.
  revert header. induction sep_rows as [|row rest IH]; intros header.
  - simpl. by rewrite append_empty_r.
  - simpl map. change (PyStr.join nl (header :: ?x :: ?l))
      with (header +:+ nl +:+ PyStr.join nl (x :: l)).
    by rewrite IH.
Qed.

Lemma csv_text_lines columns rows :
  csv_text columns rows = PyStr.join "," columns +:+ following_lines rows.
Proof. unfold csv_text. apply join_following. Qed.

(** ** Results of the operations *)

Section ResultTheorems.

Variable env : gmap string string.
Variable d : db.
Variable config : gmap string pyval.
Hypothesis resolved : get_db_config env = inr config.
Hypothesis connected : connect_result d config = None.

(** A row-producing statement through [execute_sql]. *)
Lemma execute_sql_row_producing query cur columns rows :
  execute_result d query None = inr cur →
  description cur = Some columns → columns ≠ [] →
  fetch_result cur = inr rows →
  (execute_sql env d query).2 = Returned (csv_text columns rows).
Proof.
  intros Hexec Hdesc Hne Hfetch. unfold execute_sql. rewrite resolved.
  unfold_body. rewrite connected, Hexec. simpl. rewrite Hdesc.
  destruct columns as [|c cs]; [done|]. simpl. by rewrite Hfetch.
Qed.

(** C6. For a row-producing statement, [execute_sql] returns the column
    names joined by commas, followed for each row, in row order, by a line
    feed and the [str] renderings of its cells joined by commas. *)
Theorem execute_sql_csv query cur columns rows :
  execute_result d query None = inr cur →
  description cur = Some columns → columns ≠ [] →
  fetch_result cur = inr rows →
  (execute_sql env d query).2
  = Returned (PyStr.join "," columns +:+ following_lines rows).
Proof.
  intros Hexec Hdesc Hne Hfetch.
  rewrite (execute_sql_row_producing _ _ _ _ Hexec Hdesc Hne Hfetch).
  by rewrite csv_text_lines.
Qed.

(** C7. When a row-producing statement gives no row, [execute_sql] returns
    the header line alone, [read_table_preview] returns
    "No data found in this table." and [list_sql_tables] returns
    "No tables found in this database.". *)
Theorem zero_rows_results :
  (∀ query cur columns,
     execute_result d query None = inr cur →
     description cur = Some columns → columns ≠ [] →
     fetch_result cur = inr [] →
     (execute_sql env d query).2 = Returned (PyStr.join "," columns))
  ∧ (∀ table_name safe_table cur columns,
       validate_table_name table_name = inr safe_table →
       execute_result d ("SELECT TOP 100 * FROM " +:+ safe_table) None
       = inr cur →
       description cur = Some columns →
       fetch_result cur = inr [] →
       (read_table_preview env d table_name).2
       = Returned "No data found in this table.")
  ∧ (∀ cur,
       execute_result d tables_sql None = inr cur →
       fetch_result cur = inr [] →
       (list_sql_tables env d).2
       = Returned "No tables found in this database.").
Proof.
  split; [|split].
  - intros query cur columns Hexec Hdesc Hne Hfetch.
    by rewrite (execute_sql_row_producing _ _ _ _ Hexec Hdesc Hne Hfetch).
  - intros table_name safe_table cur columns Hvalid Hexec Hdesc Hfetch.
    unfold read_table_preview. rewrite resolved. unfold_body.
    rewrite Hvalid. simpl. rewrite connected, Hexec. simpl.
    rewrite Hdesc. simpl. by rewrite Hfetch.
  - intros cur Hexec Hfetch.
    unfold list_sql_tables. rewrite resolved. unfold_body.
    rewrite connected, Hexec. simpl. by rewrite Hfetch.
Qed.

(** C4, as the code has it. Once the configuration is resolved, when the
    validator rejects the table name, [read_table_preview] makes no driver
    call (no connection is attempted) and returns an error string in which
    the name given occurs. *)
Theorem read_table_preview_invalid_name table_name e :
  validate_table_name table_name = inl e →
  ∃ msg, read_table_preview env d table_name = ([], Returned msg)
         ∧ msg = "Error reading table '" +:+ table_name
                 +:+ "': Invalid table name: " +:+ table_name
         ∧ PyStr.contains table_name msg = true.
Proof.
  intros Hinvalid. eexists. split; [|split; [reflexivity|]].
  - unfold read_table_preview. rewrite resolved. unfold_body.
    rewrite Hinvalid. simpl. unfold validate_table_name in Hinvalid.
    destruct (negb _); [by injection Hinvalid as <-|].
    by destruct (PyStr.split _ _) as [|p0 [|p1 [|p2 ps]]].
  - apply contains_append.
Qed.

End ResultTheorems.


(** What [count_user_logins] sends: the fixed statement, with the user and
    the text of the year bound in that order. *)
Lemma count_user_logins_sends env d config user_id year :
  get_db_config env = inr config → connect_result d config = None →
  ∃ rest,
    (count_user_logins env d user_id year).1
    = ([EConnect config true; ECursor;
        EExecute count_sql (Some [SStr user_id; SStr (str_of_arg year)])]
       ++ rest)%list.
Proof.
  intros Hc Hconn. unfold count_user_logins. rewrite Hc, try_except_trace.
  unfold_body. rewrite Hconn.
  destruct (execute_result d _ _) as [msg|cur]; [by exists []|].
  simpl. destruct (fetch_result cur) as [msg|[|[|c row] rows]]; simpl; eauto.
Qed.

Example count_user_logins_alice :
  (count_user_logins env_credentials db_three_logins "alice" (AInt 2023)).2
  = Returned "alice appeared 3 times in 2023".
Proof. reflexivity. Qed.

(** ** The theorems at concrete inputs *)

(** The example of the specification: columns a, b and rows (1, 2), (3, 4). *)
Lemma execute_sql_csv_witness :
  (execute_sql env_credentials db_two_by_two "SELECT a, b FROM t").2
  = Returned ("a,b" +:+ nl +:+ "1,2" +:+ nl +:+ "3,4").
Proof.
  apply (execute_sql_csv env_credentials db_two_by_two config_credentials
           get_db_config_credentials eq_refl "SELECT a, b FROM t"
           (cursor_of ["a"; "b"] [[SInt 1; SInt 2]; [SInt 3; SInt 4]])
           ["a"; "b"] [[SInt 1; SInt 2]; [SInt 3; SInt 4]]);
    [reflexivity | reflexivity | discriminate | reflexivity].
Defined.

Lemma zero_rows_results_witness :
  (execute_sql env_credentials db_no_rows "SELECT id, name FROM t").2
  = Returned "id,name"
  ∧ (read_table_preview env_credentials db_no_rows "dbo.accounts").2
    = Returned "No data found in this table."
  ∧ (list_sql_tables env_credentials db_no_rows).2
    = Returned "No tables found in this database.".
Proof.
  destruct (zero_rows_results env_credentials db_no_rows config_credentials
              get_db_config_credentials eq_refl) as (Hexec & Hprev & Hlist).
  split; [|split].
  - apply (Hexec "SELECT id, name FROM t" (cursor_of ["id"; "name"] [])
             ["id"; "name"]);
      [reflexivity | reflexivity | discriminate | reflexivity].
  - apply (Hprev "dbo.accounts" "[dbo].[accounts]"
             (cursor_of ["id"; "name"] []) ["id"; "name"]); reflexivity.
  - apply (Hlist (cursor_of ["id"; "name"] [])); reflexivity.
Defined.

(** The failure scenario of the specification: table name "1bad name". *)
Lemma read_table_preview_invalid_name_witness :
  ∃ msg, read_table_preview env_credentials db_two_by_two "1bad name"
         = ([], Returned msg)
         ∧ msg = "Error reading table '1bad name': Invalid table name: 1bad name"
         ∧ PyStr.contains "1bad name" msg = true.
Proof.
  apply (read_table_preview_invalid_name env_credentials db_two_by_two
           config_credentials get_db_config_credentials "1bad name"
           (ValueError "Invalid table name: 1bad name")).
  reflexivity.
Defined.


(** ** Where the operations differ from the specification *)



(** C4, the claim refuted as worded. "1bad name" is rejected by the
    validator, yet with no credentials in the environment
    [read_table_preview] returns no error string: the [ValueError] of
    [get_db_config], raised before the name is looked at, leaves the
    operation. *)
Lemma read_table_preview_invalid_name_unconfigured :
  validate_table_name "1bad name"
  = inl (ValueError "Invalid table name: 1bad name")
  ∧ read_table_preview ∅ db_two_by_two "1bad name"
    = ([], Raised (ConfigValueError failure_message))
  ∧ ¬ ∃ s, (read_table_preview ∅ db_two_by_two "1bad name").2 = Returned s.
Proof.
  split; [reflexivity|]. split; [reflexivity|].
  intros [s Hs]. discriminate Hs.
Qed.

(** ** The identifier validator *)

Section Split.

Variable sep : ascii.

Lemma split_nonempty s : PyStr.split sep s ≠ [].
Proof.
  destruct s as [|c s]; simpl; [done|].
  destruct (Ascii.eqb c sep); [done|]. by destruct (PyStr.split sep s).
Qed.

(** [sep.join(s.split(sep)) == s] *)
Lemma join_split s :
  PyStr.join (String sep "") (PyStr.split sep s) = s.
Proof.
  induction s as [|c s IH]; [done|]. simpl.
  pose proof (split_nonempty s) as Hne.
  destruct (Ascii.eqb_spec c sep) as [->|Hc].
  - destruct (PyStr.split sep s) as [|h t]; [done|].
    change (PyStr.join ?x ("" :: h :: t))
      with ("" +:+ x +:+ PyStr.join x (h :: t)).
    by rewrite IH.
  - destruct (PyStr.split sep s) as [|h [|h' t]]; [done| |].
    + simpl in *. by rewrite IH.
    + change (PyStr.join ?x (String c h :: h' :: t))
        with (String c (h +:+ x +:+ PyStr.join x (h' :: t))).
      change (PyStr.join ?x (h :: h' :: t))
        with (h +:+ x +:+ PyStr.join x (h' :: t)) in IH.
      by rewrite IH.
Qed.

(** Text without the separator stays in the first part. *)
Lemma split_append (cls : ascii → bool) a rest :
  cls sep = false → all_chars cls a = true →
  ∃ h t, PyStr.split sep rest = h :: t
         ∧ PyStr.split sep (a +:+ rest) = (a +:+ h) :: t.
Proof.
  intros Hsep. induction a as [|c a IH]; intros Ha.
  - pose proof (split_nonempty rest).
    destruct (PyStr.split sep rest) as [|h t] eqn:E; [done|].
    exists h, t. split; [done|]. exact E.
  - simpl in Ha. apply andb_true_iff in Ha as [Hc Ha].
    destruct (IH Ha) as (h & t & Hrest & Happ).
    exists h, t. split; [done|].
    rewrite append_cons. simpl.
    destruct (Ascii.eqb_spec c sep) as [->|_]; [congruence|].
    by rewrite Happ.
Qed.

End Split.

Lemma is_segment_spec a :
  is_segment a = true ↔ a ≠ "" ∧ all_chars Re.word_char a = true.
Proof.
  unfold is_segment. rewrite andb_true_iff, negb_true_iff, String.eqb_neq.
  done.
Qed.

Lemma at_eol_spec e : Re.at_eol e = true ↔ e = "" ∨ e = nl.
Proof.
  destruct e as [|c [|c' e]]; simpl.
  - naive_solver.
  - unfold nl. split.
    + intros ->%Ascii.eqb_eq. by right.
    + intros [|[= ->]]; [done|]. apply Ascii.eqb_refl.
  - split; [done|]. unfold nl. intros [|]; discriminate.
Qed.

(** [ [...]+ ] followed by [k]: some non-empty run of characters of the class
    is taken, and [k] accepts what is left. *)
Lemma class_plus_spec cls s : ∀ pos k,
  Re.class_plus cls pos s k = true ↔
  ∃ a b, s = a +:+ b ∧ a ≠ "" ∧ all_chars cls a = true
         ∧ k (pos + String.length a)%nat b = true.
Proof.
  induction s as [|c s IH]; intros pos k; simpl.
  - split; [done|]. intros ([|c a] & b & Hs & Hne & _); [done|]. discriminate.
  - destruct (cls c) eqn:Hc.
    + rewrite orb_true_iff, IH. split.
      * intros [(a & b & -> & Hne & Ha & Hk)|Hk].
        -- exists (String c a), b. simpl. rewrite Hc, Ha.
           rewrite Nat.add_succ_r. done.
        -- exists (String c ""), s. simpl. rewrite Hc, Nat.add_1_r. done.
      * intros ([|c' a] & b & Hs & Hne & Ha & Hk); [done|].
        rewrite append_cons in Hs. injection Hs as <- ->.
        simpl in Ha. apply andb_true_iff in Ha as [_ Ha].
        destruct a as [|c'' a].
        -- right. simpl in Hk. by rewrite Nat.add_1_r in Hk.
        -- left. exists (String c'' a), b. repeat split; try done.
           simpl in *. by rewrite Nat.add_succ_r in Hk.
    + split; [done|]. intros ([|c' a] & b & Hs & Hne & Ha & _); [done|].
      rewrite append_cons in Hs. injection Hs as <- ->.
      simpl in Ha. by rewrite Hc in Ha.
Qed.

(** What [re.match] accepts for the pattern of [validate_table_name]. *)
Lemma re_match_table_name s :
  Re.re_match table_name_pattern s = true ↔
  ∃ a b, s = a +:+ b ∧ is_segment a = true
         ∧ ((b = "" ∨ b = nl)
            ∨ ∃ c e, b = "." +:+ c +:+ e ∧ is_segment c = true
                     ∧ (e = "" ∨ e = nl)).
Proof.
  unfold Re.re_match, table_name_pattern. simpl.
  rewrite class_plus_spec. split.
  - intros (a & b & -> & Hne & Ha & Hk). exists a, b.
    split; [done|]. split; [by apply is_segment_spec|].
    apply orb_true_iff in Hk as [Hk|Hk].
    + right. destruct b as [|c' t]; [done|].
      apply andb_true_iff in Hk as [->%Ascii.eqb_eq Hk].
      apply class_plus_spec in Hk as (c & e & -> & Hcne & Hc & He).
      exists c, e. split; [done|]. split; [by apply is_segment_spec|].
      rewrite andb_true_r in He. by apply at_eol_spec.
    + left. rewrite andb_true_r in Hk. by apply at_eol_spec.
  - intros (a & b & -> & [Hne Ha]%is_segment_spec & Hb). exists a, b.
    repeat split; try done. apply orb_true_iff.
    destruct Hb as [Hb|(c & e & -> & [Hcne Hc]%is_segment_spec & He)].
    + right. rewrite andb_true_r. by apply at_eol_spec.
    + left. rewrite append_cons. rewrite Ascii.eqb_refl. simpl.
      apply class_plus_spec. exists c, e. repeat split; try done.
      rewrite andb_true_r. by apply at_eol_spec.
Qed.

Lemma word_char_dot : Re.word_char "." = false.
Proof. reflexivity. Qed.

Lemma split_line_end e : e = "" ∨ e = nl → PyStr.split "." e = [e].
Proof. by intros [-> | ->]. Qed.

(** A segment, with or without a line feed after it, is one part. *)
Lemma split_segment a e :
  all_chars Re.word_char a = true → e = "" ∨ e = nl →
  PyStr.split "." (a +:+ e) = [a +:+ e].
Proof.
  intros Ha He.
  destruct (split_append "." Re.word_char a e word_char_dot Ha)
    as (h & t & Hrest & ->).
  rewrite (split_line_end e He) in Hrest. by injection Hrest as <- <-.
Qed.

(** Two segments around a dot are two parts. *)
Lemma split_two_segments a c e :
  all_chars Re.word_char a = true → all_chars Re.word_char c = true →
  e = "" ∨ e = nl →
  PyStr.split "." (a +:+ "." +:+ c +:+ e) = [a; c +:+ e].
Proof.
  intros Ha Hc He.
  destruct (split_append "." Re.word_char a ("." +:+ c +:+ e) word_char_dot Ha)
    as (h & t & Hrest & ->).
  rewrite append_cons in Hrest. simpl in Hrest.
  change ("" +:+ c +:+ e) with (c +:+ e) in Hrest.
  rewrite (split_segment c e Hc He) in Hrest.
  injection Hrest as <- <-. by rewrite append_empty_r.
Qed.

(** [strict_identifier] spelled out: one segment, or two around one dot. *)
Lemma strict_identifier_spec s :
  strict_identifier s = true ↔
  is_segment s = true
  ∨ ∃ a c, s = a +:+ "." +:+ c ∧ is_segment a = true ∧ is_segment c = true.
Proof.
  unfold strict_identifier. split.
  - pose proof (join_split "." s) as Hjoin.
    destruct (PyStr.split "." s) as [|a [|c [|x l]]]; try done.
    + simpl in Hjoin. subst a. by left.
    + intros [Ha Hc]%andb_true_iff. right. exists a, c.
      split; [|done]. by rewrite <- Hjoin.
  - intros [Hs|(a & c & -> & Ha & Hc)].
    + pose proof Hs as [_ Hall]%is_segment_spec.
      pose proof (split_segment s "" Hall (or_introl eq_refl)) as Hsplit.
      rewrite append_empty_r in Hsplit. by rewrite Hsplit.
    + pose proof Ha as [_ Halla]%is_segment_spec.
      pose proof Hc as [_ Hallc]%is_segment_spec.
      pose proof (split_two_segments a c "" Halla Hallc (or_introl eq_refl))
        as Hsplit.
      rewrite !append_empty_r in Hsplit. rewrite Hsplit.
      by rewrite Ha, Hc.
Qed.

(** The pattern accepts the strict identifiers and, because [$] also holds
    before a final line feed, the strict identifiers followed by one line
    feed; it accepts nothing else. *)
Lemma re_match_strict_or_newline s :
  Re.re_match table_name_pattern s = true ↔
  strict_identifier s = true
  ∨ ∃ core, s = core +:+ nl ∧ strict_identifier core = true.
Proof.
  rewrite re_match_table_name. split.
  - intros (a & b & -> & Ha & [[-> | ->]|(c & e & -> & Hc & [-> | ->])]).
    + left. rewrite append_empty_r. apply strict_identifier_spec. by left.
    + right. exists a. split; [done|]. apply strict_identifier_spec. by left.
    + left. rewrite append_empty_r. apply strict_identifier_spec.
      right. by exists a, c.
    + right. exists (a +:+ "." +:+ c). split; [by rewrite !append_assoc|].
      apply strict_identifier_spec. right. by exists a, c.
  - intros [Hs|(core & -> & Hs)];
      apply strict_identifier_spec in Hs as [Hs|(a & c & -> & Ha & Hc)].
    + exists s, "". rewrite append_empty_r. auto.
    + exists a, ("." +:+ c +:+ ""). rewrite append_empty_r.
      repeat split; try done. right. exists c, "".
      rewrite append_empty_r. auto.
    + exists core, nl. auto.
    + exists a, ("." +:+ c +:+ nl). rewrite !append_assoc.
      repeat split; try done. right. exists c, nl. auto.
Qed.

(** What the pattern accepts splits into one part, the text itself, or into
    two parts. *)
Lemma accepted_parts s :
  Re.re_match table_name_pattern s = true →
  PyStr.split "." s = [s] ∨ ∃ p0 p1, PyStr.split "." s = [p0; p1].
Proof.
  intros (a & b & -> & [_ Ha]%is_segment_spec & Hb)%re_match_table_name.
  destruct Hb as [Hb|(c & e & -> & [_ Hc]%is_segment_spec & He)].
  - left. by apply split_segment.
  - right. exists a, (c +:+ e). by apply split_two_segments.
Qed.

(** [validate_table_name], case by case: on the texts the pattern accepts
    the result is the bracket-quoted form, on all others the [ValueError]. *)
Lemma validate_table_name_cases s :
  validate_table_name s =
  if Re.re_match table_name_pattern s
  then inr (bracket_quoted s)
  else inl (ValueError ("Invalid table name: " +:+ s)).
Proof.
  unfold validate_table_name, bracket_quoted.
  destruct (Re.re_match table_name_pattern s) eqn:Hm; [|done]. simpl.
  destruct (accepted_parts s Hm) as [-> | (p0 & p1 & ->)].
  - done.
  - simpl. by rewrite !append_assoc.
Qed.

(** On every text that does not end with a line feed the validator is as
    strict as the specification says: it succeeds exactly on the strict
    identifiers, with the bracket-quoted form. *)
Lemma validate_table_name_without_final_newline s :
  (∀ core, s ≠ core +:+ nl) →
  (strict_identifier s = true ∧ validate_table_name s = inr (bracket_quoted s))
  ∨ (strict_identifier s = false
     ∧ validate_table_name s = inl (ValueError ("Invalid table name: " +:+ s))).
Proof.
  intros Hnl. rewrite validate_table_name_cases.
  destruct (Re.re_match table_name_pattern s) eqn:Hm.
  - left. apply re_match_strict_or_newline in Hm as [Hs|(core & -> & _)];
      [done|]. by destruct (Hnl core).
  - right. split; [|done]. apply not_true_is_false. intros Hs.
    assert (Re.re_match table_name_pattern s = true) as Hm'
        by (apply re_match_strict_or_newline; by left).
    congruence.
Qed.

(** C3, where the code departs from it. A strict identifier followed by a
    line feed is not of the accepted syntax, yet [validate_table_name]
    accepts it and puts the line feed inside the brackets; the two examples
    of the specification behave as it says. *)
Theorem validate_table_name_final_newline :
  strict_identifier ("accounts" +:+ nl) = false
  ∧ validate_table_name ("accounts" +:+ nl) = inr ("[accounts" +:+ nl +:+ "]")
  ∧ validate_table_name ("dbo.accounts" +:+ nl)
    = inr ("[dbo].[accounts" +:+ nl +:+ "]")
  ∧ validate_table_name "dbo.accounts" = inr "[dbo].[accounts]"
  ∧ validate_table_name "accounts; DROP TABLE x"
    = inl (ValueError "Invalid table name: accounts; DROP TABLE x").
Proof. by vm_compute. Qed.

(** * Further properties of the code *)

(** ** [validate_table_name]: what is accepted, what is produced *)

(** X1. [validate_table_name] accepts exactly the strict identifiers and the
    strict identifiers followed by one line feed, and returns for them the
    bracket-quoted form; every other text is rejected with the [ValueError]
    "Invalid table name: " followed by the text. *)
Theorem validate_table_name_characterised s :
  (validate_table_name s = inr (bracket_quoted s)
   ∧ (strict_identifier s = true
      ∨ ∃ core, s = core +:+ nl ∧ strict_identifier core = true))
  ∨ (validate_table_name s = inl (ValueError ("Invalid table name: " +:+ s))
     ∧ strict_identifier s = false
     ∧ ∀ core, s = core +:+ nl → strict_identifier core = false).
Proof.
  rewrite validate_table_name_cases.
  destruct (Re.re_match table_name_pattern s) eqn:Hm.
  - left. split; [done|]. by apply re_match_strict_or_newline.
  - right. split; [done|].
    assert (¬ (strict_identifier s = true
               ∨ ∃ core, s = core +:+ nl ∧ strict_identifier core = true))
      as Hno.
    { intros H%re_match_strict_or_newline. congruence. }
    split.
    + apply not_true_is_false. intros H. apply Hno. by left.
    + intros core -> . apply not_true_is_false. intros H. apply Hno.
      right. by exists core.
Qed.

(** X2. Whatever [validate_table_name] returns has one of two shapes:
    [[a]] or [[b].[a]], where the segments are non-empty runs of word
    characters and the last segment may carry the final line feed of the
    name.  No bracket, quote, space or semicolon can occur inside the
    brackets. *)
Theorem validate_table_name_shape s q :
  validate_table_name s = inr q →
  ∃ a e, is_segment a = true ∧ (e = "" ∨ e = nl)
         ∧ ((s = a +:+ e ∧ q = "[" +:+ a +:+ e +:+ "]")
            ∨ ∃ b, is_segment b = true
                   ∧ s = b +:+ "." +:+ a +:+ e
                   ∧ q = "[" +:+ b +:+ "].[" +:+ a +:+ e +:+ "]").
Proof.
  unfold validate_table_name.
  destruct (Re.re_match table_name_pattern s) eqn:Hm; [|done]. simpl.
  apply re_match_table_name in Hm
    as (a & b & -> & Ha & [Hb|(c & e & -> & Hc & He)]).
  - pose proof Ha as [_ Hall]%is_segment_spec.
    rewrite (split_segment a b Hall Hb). intros [= <-].
    exists a, b. split; [done|]. split; [done|]. left. split; [done|].
    by rewrite append_assoc.
  - pose proof Ha as [_ Halla]%is_segment_spec.
    pose proof Hc as [_ Hallc]%is_segment_spec.
    rewrite (split_two_segments a c e Halla Hallc He). intros [= <-].
    exists c, e. split; [done|]. split; [done|]. right. exists a.
    split; [done|]. split; [done|]. by rewrite !append_assoc.
Qed.

Lemma validate_table_name_shape_witness :
  ∃ a e, is_segment a = true ∧ (e = "" ∨ e = nl)
         ∧ (("dbo.accounts" = a +:+ e ∧ "[dbo].[accounts]" = "[" +:+ a +:+ e +:+ "]")
            ∨ ∃ b, is_segment b = true
                   ∧ "dbo.accounts" = b +:+ "." +:+ a +:+ e
                   ∧ "[dbo].[accounts]" = "[" +:+ b +:+ "].[" +:+ a +:+ e +:+ "]").
Proof.
  apply (validate_table_name_shape "dbo.accounts" "[dbo].[accounts]").
  reflexivity.
Defined.

(** ** The driver calls an operation makes *)

Section CallTheorems.

Variable env : gmap string string.
Variable d : db.

(** X3. [execute_sql] sends the text it was given, unchanged and without
    parameters; the report, the count and the listing send their fixed
    statement texts, the arguments of the report and of the count going
    only into the bound parameters, in the order of the placeholders.  Each
    sends exactly one statement when the configuration resolves and the
    connection opens, and none otherwise. *)
Theorem operations_statements :
  (∀ query, statements (execute_sql env d query).1 = sent env d (query, None))
  ∧ (∀ start_date end_date account_id,
       statements
         (report_trial_balance_by_seg_ref env d start_date end_date account_id).1
       = sent env d (report_query,
               Some [SStr start_date; SStr end_date; SStr account_id]))
  ∧ (∀ user_id year,
       statements (count_user_logins env d user_id year).1
       = sent env d (count_sql, Some [SStr user_id; SStr (str_of_arg year)]))
  ∧ statements (list_sql_tables env d).1 = sent env d (tables_sql, None).
Proof.
  unfold sent, execute_sql, report_trial_balance_by_seg_ref,
    count_user_logins, list_sql_tables.
  destruct (get_db_config env) as [e|config]; [done|].
  rewrite !try_except_trace.
  repeat split; intros; unfold_body.
  - run_cases.
  - run_cases.
  - run_cases.
  - destruct (connect_result d config); [done|].
    destruct (execute_result d _ _) as [msg|cur]; [done|].
    destruct (fetch_result cur) as [msg|[|row rows]]; [done..|].
    pose proof (table_lines_pure (row :: rows)) as Ht.
    destruct (table_lines (row :: rows)) as [t [[]|lines]];
      simpl in *; by subst.
Qed.

(** X4. The only statement [read_table_preview] ever sends is
    "SELECT TOP 100 * FROM " followed by what [validate_table_name] returned
    for the name, without parameters; when the name is rejected nothing is
    sent. *)
Theorem read_table_preview_statements table_name :
  statements (read_table_preview env d table_name).1
  = match validate_table_name table_name with
    | inl _ => []
    | inr safe_table =>
        sent env d ("SELECT TOP 100 * FROM " +:+ safe_table, None)
    end.
Proof.
  unfold sent, read_table_preview.
  destruct (get_db_config env) as [e|config];
    [by destruct (validate_table_name table_name)|].
  rewrite try_except_trace. unfold_body.
  destruct (validate_table_name table_name) as [e|safe]; [done|].
  run_cases.
Qed.

(** X5. Every operation deals with the driver in one fixed order: at most
    one connection attempt, and after an opened connection one cursor, one
    statement, at most one fetch or commit, then the cursor closed and
    right after it the connection closed.  Nothing is retried, and nothing
    is asked of the driver once the connection is closed. *)
Theorem operations_protocol :
  (∀ query, protocol Idle (execute_sql env d query).1 = true)
  ∧ (∀ start_date end_date account_id,
       protocol Idle
         (report_trial_balance_by_seg_ref env d start_date end_date account_id).1
       = true)
  ∧ (∀ user_id year,
       protocol Idle (count_user_logins env d user_id year).1 = true)
  ∧ protocol Idle (list_sql_tables env d).1 = true
  ∧ (∀ table_name, protocol Idle (read_table_preview env d table_name).1 = true).
Proof.
  unfold execute_sql, report_trial_balance_by_seg_ref, count_user_logins,
    list_sql_tables, read_table_preview.
  destruct (get_db_config env) as [e|config]; [done|].
  rewrite !try_except_trace.
  repeat split; intros; unfold_body.
  - run_cases.
  - run_cases.
  - run_cases.
  - destruct (connect_result d config); [done|].
    destruct (execute_result d _ _) as [msg|cur]; [done|].
    destruct (fetch_result cur) as [msg|[|row rows]]; [done..|].
    pose proof (table_lines_pure (row :: rows)) as Ht.
    destruct (table_lines (row :: rows)) as [t [[]|lines]];
      simpl in *; by subst.
  - destruct (validate_table_name table_name) as [e|safe]; [done|].
    run_cases.
Qed.

(** X6. Only [execute_sql] commits, and it does so exactly when the
    statement it sent came back without a column description; the report,
    the count, the listing and the preview never commit. *)
Theorem operations_commit :
  (∀ query,
     commits (execute_sql env d query).1 = true ↔
     ∃ config cur, get_db_config env = inr config
                   ∧ connect_result d config = None
                   ∧ execute_result d query None = inr cur
                   ∧ has_description cur = false)
  ∧ (∀ start_date end_date account_id,
       commits
         (report_trial_balance_by_seg_ref env d start_date end_date account_id).1
       = false)
  ∧ (∀ user_id year, commits (count_user_logins env d user_id year).1 = false)
  ∧ commits (list_sql_tables env d).1 = false
  ∧ (∀ table_name, commits (read_table_preview env d table_name).1 = false).
Proof.
  unfold execute_sql, report_trial_balance_by_seg_ref, count_user_logins,
    list_sql_tables, read_table_preview.
  destruct (get_db_config env) as [e|config].
  { repeat split; try done. intros (? & ? & ? & _). done. }
  rewrite !try_except_trace. split.
  - intros query. unfold_body. unfold has_description. split.
    + intros Hcommit.
      destruct (connect_result d config) eqn:Hconn; [done|].
      destruct (execute_result d query None) as [msg|cur] eqn:Hexec; [done|].
      exists config, cur. repeat split; try done.
      revert Hcommit. simpl. run_cases.
    + intros (config' & cur & [= <-] & Hconn & Hexec & Hdesc).
      rewrite Hconn, Hexec. simpl. rewrite Hdesc. run_cases.
  - repeat split; intros; unfold_body.
    + run_cases.
    + run_cases.
    + destruct (connect_result d config); [done|].
      destruct (execute_result d _ _) as [msg|cur]; [done|].
      destruct (fetch_result cur) as [msg|[|row rows]]; [done..|].
      pose proof (table_lines_pure (row :: rows)) as Ht.
      destruct (table_lines (row :: rows)) as [t [[]|lines]];
        simpl in *; by subst.
    + destruct (validate_table_name table_name) as [e|safe]; [done|].
      run_cases.
Qed.

End CallTheorems.

Section PathTheorems.

Variable env : gmap string string.
Variable d : db.
Variable config : gmap string pyval.
Hypothesis resolved : get_db_config env = inr config.

(** X7. A statement that comes back without a column description is
    committed before anything is closed.  When the commit succeeds,
    [execute_sql] closes cursor and connection and reports the driver's
    row count; when the commit raises, it returns the error text and closes
    nothing. *)
Theorem execute_sql_mutating query cur :
  connect_result d config = None →
  execute_result d query None = inr cur →
  has_description cur = false →
  execute_sql env d query =
  match commit_result cur with
  | None =>
      ([EConnect config true; ECursor; EExecute query None; ECommit;
        ECursorClose; EConnClose],
       Returned ("Query executed successfully. Rows affected: "
                 +:+ PyStr.str_of_int (rowcount cur)))
  | Some msg =>
      ([EConnect config true; ECursor; EExecute query None; ECommit],
       Returned ("Error executing query: " +:+ msg))
  end.
Proof.
  intros Hconn Hexec Hdesc. unfold execute_sql. rewrite resolved.
  unfold_body. rewrite Hconn, Hexec. simpl.
  unfold has_description in Hdesc. rewrite Hdesc.
  by destruct (commit_result cur).
Qed.

(** X8. When the driver refuses the connection, every operation returns its
    own prefix followed by the driver's message, unchanged, after that
    single attempt: no cursor is asked for and no statement is sent. *)
Theorem operations_connection_refused msg :
  connect_result d config = Some msg →
  (∀ query,
     execute_sql env d query
     = ([EConnect config false], Returned ("Error executing query: " +:+ msg)))
  ∧ (∀ start_date end_date account_id,
       report_trial_balance_by_seg_ref env d start_date end_date account_id
       = ([EConnect config false], Returned ("Error: " +:+ msg)))
  ∧ (∀ user_id year,
       count_user_logins env d user_id year
       = ([EConnect config false], Returned ("Error: " +:+ msg)))
  ∧ list_sql_tables env d
    = ([EConnect config false], Returned ("Error listing tables: " +:+ msg))
  ∧ (∀ table_name safe_table,
       validate_table_name table_name = inr safe_table →
       read_table_preview env d table_name
       = ([EConnect config false],
          Returned ("Error reading table '" +:+ table_name +:+ "': " +:+ msg))).
Proof.
  intros Hconn.
  unfold execute_sql, report_trial_balance_by_seg_ref, count_user_logins,
    list_sql_tables, read_table_preview.
  rewrite resolved. repeat split; intros; unfold_body;
    rewrite ?H, Hconn; done.
Qed.

End PathTheorems.

Lemma execute_sql_mutating_witness :
  execute_sql env_credentials (db_updating 3) "DELETE FROM t WHERE id < 4"
  = ([EConnect config_credentials true; ECursor;
      EExecute "DELETE FROM t WHERE id < 4" None; ECommit;
      ECursorClose; EConnClose],
     Returned "Query executed successfully. Rows affected: 3").
Proof.
  apply (execute_sql_mutating env_credentials (db_updating 3)
           config_credentials get_db_config_credentials
           "DELETE FROM t WHERE id < 4"
           {| description := None; fetch_result := inl "no result set";
              commit_result := None; rowcount := 3 |});
    reflexivity.
Defined.

Lemma operations_connection_refused_witness :
  execute_sql env_credentials (db_unreachable "Login failed") "SELECT 1"
  = ([EConnect config_credentials false],
     Returned "Error executing query: Login failed")
  ∧ read_table_preview env_credentials (db_unreachable "Login failed")
      "dbo.accounts"
    = ([EConnect config_credentials false],
       Returned "Error reading table 'dbo.accounts': Login failed").
Proof.
  destruct (operations_connection_refused env_credentials
              (db_unreachable "Login failed") config_credentials
              get_db_config_credentials "Login failed" eq_refl)
    as (Hexec & _ & _ & _ & Hprev).
  split; [apply Hexec|].
  apply (Hprev "dbo.accounts" "[dbo].[accounts]"). reflexivity.
Defined.

(** ** [int] after [str] *)

Lemma digits_of_uint d : ∀ acc,
  PyStr.digits acc true (NilEmpty.string_of_uint d) = Some (uint_value acc d).
Proof. induction d; intros acc; simpl; by rewrite ?IHd. Qed.

Lemma digits_of_uint_start d acc :
  d ≠ Decimal.Nil →
  PyStr.digits acc false (NilEmpty.string_of_uint d) = Some (uint_value acc d).
Proof. destruct d; intros Hd; try done; simpl; apply digits_of_uint. Qed.

Lemma of_uint_acc_value d : ∀ acc,
  Z.pos (Pos.of_uint_acc d acc) = uint_value (Z.pos acc) d.
Proof.
  induction d; intros acc; simpl; [done|..];
    rewrite IHd; f_equal; lia.
Qed.

Lemma of_uint_value d : Z.of_N (Pos.of_uint d) = uint_value 0 d.
Proof.
  induction d; simpl; [done|done|..]; by rewrite of_uint_acc_value.
Qed.

Lemma uint_value_to_uint p : uint_value 0 (Pos.to_uint p) = Z.pos p.
Proof. by rewrite <- of_uint_value, DecimalPos.Unsigned.of_to. Qed.

Lemma rstrip_no_space s :
  all_chars (fun c => negb (PyStr.is_space c)) s = true → PyStr.rstrip s = s.
Proof.
  induction s as [|c s IH]; [done|]. simpl.
  intros [Hc Hs]%andb_true_iff. rewrite (IH Hs).
  destruct s; [|done]. by apply negb_true_iff in Hc as ->.
Qed.

Lemma string_of_uint_no_space d :
  all_chars (fun c => negb (PyStr.is_space c)) (NilEmpty.string_of_uint d)
  = true.
Proof. induction d; simpl; by rewrite ?IHd. Qed.

(** A run of ASCII digits is left as it is by the rewriting. *)
Lemma to_ascii_of_uint d :
  PyStr.to_ascii 0 0 0 (NilEmpty.string_of_uint d)
  = Some (NilEmpty.string_of_uint d).
Proof. induction d; [done|..]; cbn; by rewrite IHd. Qed.

Lemma int_of_str_uint d :
  d ≠ Decimal.Nil →
  PyStr.int_of_str (NilEmpty.string_of_uint d)
  = PyStr.unsigned (NilEmpty.string_of_uint d)
  ∧ PyStr.int_of_str (String "-" (NilEmpty.string_of_uint d))
    = Z.opp <$> PyStr.unsigned (NilEmpty.string_of_uint d).
Proof.
  intros Hd. unfold PyStr.int_of_str. split.
  - rewrite to_ascii_of_uint.
    assert (PyStr.lstrip (NilEmpty.string_of_uint d)
            = NilEmpty.string_of_uint d) as -> by (by destruct d).
    rewrite rstrip_no_space by apply string_of_uint_no_space.
    by destruct d.
  - change (PyStr.to_ascii 0 0 0 (String "-" ?s))
      with (String "-" <$> PyStr.to_ascii 0 0 0 s).
    rewrite to_ascii_of_uint. cbn [fmap option_fmap option_map].
    change (PyStr.lstrip (String "-" ?s)) with (String "-" s).
    by rewrite rstrip_no_space
      by (simpl; apply string_of_uint_no_space).
Qed.

Lemma unsigned_uint d q :
  d ≠ Decimal.Nil →
  PyStr.unsigned (NilEmpty.string_of_uint d) = Some q → q = uint_value 0 d.
Proof.
  intros Hd. unfold PyStr.unsigned. destruct (_ <=? _)%N; [|done].
  rewrite (digits_of_uint_start d 0 Hd). congruence.
Qed.

Lemma string_of_uint_nonnil d :
  d ≠ Decimal.Nil → NilZero.string_of_uint d = NilEmpty.string_of_uint d.
Proof. by destruct d. Qed.

(** Whenever [int(str(z))] gives a number, it is [z]. *)
Lemma int_of_str_of_int z q :
  PyStr.int_of_str (PyStr.str_of_int z) = Some q → q = z.
Proof.
  unfold PyStr.str_of_int. destruct z as [|p|p]; simpl.
  - vm_compute. congruence.
  - pose proof (DecimalPos.Unsigned.to_uint_nonnil p) as Hnn.
    rewrite (string_of_uint_nonnil _ Hnn), (proj1 (int_of_str_uint _ Hnn)).
    intros ->%(unsigned_uint _ _ Hnn). apply uint_value_to_uint.
  - pose proof (DecimalPos.Unsigned.to_uint_nonnil p) as Hnn.
    rewrite (string_of_uint_nonnil _ Hnn), (proj2 (int_of_str_uint _ Hnn)).
    destruct (PyStr.unsigned _) as [u|] eqn:Hu; [|done]. simpl.
    apply (unsigned_uint _ _ Hnn) in Hu as ->.
    rewrite uint_value_to_uint. by intros [= <-].
Qed.

(** ** [get_db_config]: what it reads and what it returns *)

Lemma present_truthy env name :
  truthy (getenv env name) = true ↔ present env name.
Proof. apply truthy_getenv. Qed.

(** X9. [get_db_config] returns a configuration exactly when the port text
    is an integer literal and the variables its authentication mode needs
    are set to non-empty texts: the database under integrated
    authentication; user, password and database otherwise.  In every other
    environment it raises. *)
Theorem get_db_config_succeeds_iff env :
  (∃ cfg, get_db_config env = inr cfg) ↔
  (∃ port, PyStr.int_of_str (getenv_or env "MSSQL_PORT" "1433") = Some port)
  ∧ (if use_windows_auth env then present env "MSSQL_DATABASE"
     else present env "MSSQL_USER" ∧ present env "MSSQL_PASSWORD"
          ∧ present env "MSSQL_DATABASE").
Proof.
  rewrite get_db_config_cases.
  destruct (PyStr.int_of_str _) as [port|].
  - destruct (use_windows_auth env).
    + rewrite <- present_truthy.
      destruct (truthy (getenv env "MSSQL_DATABASE")).
      * split; eauto.
      * split; [by intros [? ?]|]. by intros [_ ?].
    + rewrite <- !present_truthy.
      destruct (truthy (getenv env "MSSQL_USER")),
        (truthy (getenv env "MSSQL_PASSWORD")),
        (truthy (getenv env "MSSQL_DATABASE")); simpl;
        (split; [by eauto || by intros [? ?]
                | by eauto || by intros (_ & ? & ? & ?)]).
  - split; [by intros [? ?]|]. by intros [[? ?] _].
Qed.

Lemma integrated_literal env port :
  delete "password" (delete "user" (config_literal env port))
  = (<["port" := VInt port]> $
     <["database" := getenv env "MSSQL_DATABASE"]> $
     <["server" := VStr (resolved_server env)]> ∅).
Proof.
  unfold config_literal. apply map_eq. intros k.
  destruct (decide (k = "password")) as [->|Hp].
  { rewrite lookup_delete_eq. by rewrite !lookup_insert_ne by done. }
  rewrite (lookup_delete_ne _ "password" k) by (by apply not_eq_sym).
  destruct (decide (k = "user")) as [->|Hu].
  { rewrite lookup_delete_eq. by rewrite !lookup_insert_ne by done. }
  rewrite (lookup_delete_ne _ "user" k) by (by apply not_eq_sym).
  destruct (decide (k = "port")) as [->|Hport]; [by simplify_map_eq|].
  destruct (decide (k = "database")) as [->|Hd]; [by simplify_map_eq|].
  rewrite !(lookup_insert_ne _ "port" k), !(lookup_insert_ne _ "database" k),
    (lookup_insert_ne _ "password" k), (lookup_insert_ne _ "user" k)
    by (by apply not_eq_sym).
  done.
Qed.

(** X10. The keys of a returned configuration, which become the keyword
    arguments of [pymssql.connect]: [server], [database] and [port] under
    integrated authentication, and [user] and [password] besides under
    credentialed authentication. *)
Theorem get_db_config_keys env cfg :
  get_db_config env = inr cfg →
  dom cfg =
  if use_windows_auth env
  then ({["server"; "database"; "port"]} : gset string)
  else {["server"; "user"; "password"; "database"; "port"]}.
Proof.
  rewrite get_db_config_cases.
  destruct (PyStr.int_of_str _) as [port|]; [|done].
  destruct (use_windows_auth env).
  - destruct (truthy _); [|done]. intros [= <-].
    rewrite integrated_literal, !dom_insert_L, dom_empty_L. set_solver.
  - destruct (_ && _); [|done]. intros [= <-]. unfold config_literal.
    rewrite !dom_insert_L, dom_empty_L. set_solver.
Qed.

Lemma get_db_config_keys_witness :
  dom config_credentials
  = ({["server"; "user"; "password"; "database"; "port"]} : gset string).
Proof.
  apply (get_db_config_keys env_credentials config_credentials
           get_db_config_credentials).
Defined.

(** X11. [get_db_config] depends on the six variables it names and on
    nothing else: two environments that agree on them give the same result
    (in particular [MSSQL_ENCRYPT], which the code reads and drops, changes
    nothing). *)
Theorem get_db_config_reads_six env env' :
  Forall (fun name => env !! name = env' !! name) config_variables →
  get_db_config env = get_db_config env'.
Proof.
  unfold config_variables. rewrite !Forall_cons.
  intros (Hs & Hu & Hp & Hd & Hport & Hw & _).
  unfold get_db_config, use_windows_auth, resolved_server, getenv, getenv_or.
  by rewrite Hs, Hu, Hp, Hd, Hport, Hw.
Qed.

Lemma get_db_config_reads_six_witness :
  get_db_config env_credentials = get_db_config env_encrypt.
Proof.
  apply (get_db_config_reads_six env_credentials env_encrypt).
  repeat constructor.
Defined.

(** X12. Under integrated authentication the values of [MSSQL_USER] and
    [MSSQL_PASSWORD] have no influence: two environments that agree on
    server, database, port and the flag, with the flag set, give the same
    result. *)
Theorem get_db_config_integrated_ignores_credentials env env' :
  use_windows_auth env = true →
  Forall (fun name => env !! name = env' !! name)
    ["MSSQL_SERVER"; "MSSQL_DATABASE"; "MSSQL_PORT"; "MSSQL_WINDOWS_AUTH"] →
  get_db_config env = get_db_config env'.
Proof.
  rewrite !Forall_cons. intros Hflag (Hs & Hd & Hport & Hw & _).
  assert (use_windows_auth env' = true) as Hflag'.
  { revert Hflag. unfold use_windows_auth, getenv_or. by rewrite Hw. }
  assert (getenv_or env "MSSQL_PORT" "1433" = getenv_or env' "MSSQL_PORT" "1433")
    as Hp by (unfold getenv_or; by rewrite Hport).
  assert (getenv env "MSSQL_DATABASE" = getenv env' "MSSQL_DATABASE")
    as Hdb by (unfold getenv; by rewrite Hd).
  assert (resolved_server env = resolved_server env')
    as Hsrv by (unfold resolved_server, getenv_or; by rewrite Hs).
  rewrite !get_db_config_cases, Hflag, Hflag', Hp, Hdb.
  destruct (PyStr.int_of_str _) as [port|]; [|done].
  destruct (truthy _); [|done].
  by rewrite !integrated_literal, Hdb, Hsrv.
Qed.

Lemma get_db_config_integrated_ignores_credentials_witness :
  get_db_config env_integrated = get_db_config env_integrated_with_user.
Proof.
  apply (get_db_config_integrated_ignores_credentials
           env_integrated env_integrated_with_user);
    [reflexivity | repeat constructor].
Defined.

(** X13. A port given as the decimal text of an integer is the port of the
    configuration, whatever the integer: negative numbers, zero and numbers
    above 65535 included. *)
Theorem get_db_config_decimal_port env cfg (p : Z) :
  env !! "MSSQL_PORT" = Some (PyStr.str_of_int p) →
  get_db_config env = inr cfg →
  cfg !! "port" = Some (VInt p).
Proof.
  intros Hport. rewrite get_db_config_cases. unfold getenv_or.
  rewrite Hport. simpl.
  destruct (PyStr.int_of_str (PyStr.str_of_int p)) as [q|] eqn:Hq; [|done].
  apply int_of_str_of_int in Hq as ->.
  destruct (use_windows_auth env).
  - destruct (truthy _); [|done]. intros [= <-].
    rewrite !lookup_delete_ne by done. apply literal_port.
  - destruct (_ && _); [|done]. intros [= <-]. apply literal_port.
Qed.

Lemma get_db_config_decimal_port_witness :
  (<["port" := VInt (-5)]> config_credentials) !! "port" = Some (VInt (-5)).
Proof.
  apply (get_db_config_decimal_port env_port_negative
           (<["port" := VInt (-5)]> config_credentials) (-5));
    by vm_compute.
Defined.

(** ** The LocalDB host *)

Lemma remove_all_no_paren s :
  count_char "(" s = O → PyStr.remove_all "(localdb)\" s = s.
Proof.
  unfold PyStr.remove_all. induction s as [|c s IH]; [done|].
  cbn [count_char PyStr.remove_from String.prefix].
  destruct (Ascii.eqb_spec c "(") as [->|Hc]; [done|]. intros Hs.
  destruct (ascii_dec "(" c) as [<-|_]; [done|]. by rewrite (IH Hs).
Qed.

Lemma remove_all_localdb_prefix s :
  PyStr.remove_all "(localdb)\" ("(localdb)\" +:+ s)
  = PyStr.remove_all "(localdb)\" s.
Proof.
  assert (String.prefix "(localdb)\" (String "(" ("localdb)\" +:+ s)) = true)
    as Hprefix by exact (prefix_append "(localdb)\" s).
  unfold PyStr.remove_all.
  change ("(localdb)\" +:+ s) with (String "(" ("localdb)\" +:+ s)).
  cbn [PyStr.remove_from]. by rewrite Hprefix.
Qed.

Lemma config_server env cfg :
  get_db_config env = inr cfg →
  cfg !! "server" = Some (VStr (resolved_server env)).
Proof.
  rewrite get_db_config_cases.
  destruct (PyStr.int_of_str _) as [port|]; [|done].
  destruct (use_windows_auth env).
  - destruct (truthy _); [|done]. intros [= <-].
    rewrite integrated_literal. by rewrite !lookup_insert_ne by done.
  - destruct (_ && _); [|done]. intros [= <-]. unfold config_literal.
    by rewrite !lookup_insert_ne by done.
Qed.

(** X14. A host written [(localdb)\instance] reaches the driver as
    [.\instance], provided the instance name holds no opening parenthesis
    (the code removes every occurrence of [(localdb)\], not only the
    leading one). *)
Theorem get_db_config_localdb env cfg instance :
  env !! "MSSQL_SERVER" = Some ("(localdb)\" +:+ instance) →
  count_char "(" instance = O →
  get_db_config env = inr cfg →
  cfg !! "server" = Some (VStr (".\" +:+ instance)).
Proof.
  intros Hserver Hinst Hcfg. rewrite (config_server env cfg Hcfg).
  unfold resolved_server, getenv_or. rewrite Hserver. simpl.
  unfold PyStr.startswith.
  rewrite prefix_append.
  by rewrite remove_all_localdb_prefix, remove_all_no_paren.
Qed.

Lemma get_db_config_localdb_witness :
  (<["server" := VStr ".\MSSQLLocalDB"]> config_credentials) !! "server"
  = Some (VStr (".\" +:+ "MSSQLLocalDB")).
Proof.
  apply (get_db_config_localdb env_localdb
           (<["server" := VStr ".\MSSQLLocalDB"]> config_credentials)
           "MSSQLLocalDB"); by vm_compute.
Defined.

(** ** What the operations return *)

Lemma table_lines_pairs rows :
  forallb is_pair rows = true →
  table_lines rows
  = ([], inr (map (fun row => PyStr.join "," (map py_str row)) rows)).
Proof.
  induction rows as [|row rows IH]; [done|].
  intros [Hrow Hrows]%andb_true_iff.
  destruct row as [|schema [|name [|x row]]]; try done.
  cbn [table_lines unpack2]. unfold mbind, body_bind, mret, body_ret.
  by rewrite (IH Hrows).
Qed.

Lemma count_char_append c a b :
  count_char c (a +:+ b) = (count_char c a + count_char c b)%nat.
Proof.
  induction a as [|x a IH]; [done|].
  rewrite append_cons. simpl. rewrite IH. lia.
Qed.

Lemma count_char_join c sep xs :
  count_char c sep = O → Forall (fun x => count_char c x = O) xs →
  count_char c (PyStr.join sep xs) = O.
Proof.
  intros Hsep. induction 1 as [|x xs Hx Hxs IH]; [done|].
  destruct xs as [|y xs]; [done|].
  change (PyStr.join sep (x :: y :: xs))
    with (x +:+ sep +:+ PyStr.join sep (y :: xs)).
  rewrite !count_char_append, Hx, Hsep, IH. done.
Qed.

Section FormatTheorems.

Variable env : gmap string string.
Variable d : db.
Variable config : gmap string pyval.
Hypothesis resolved : get_db_config env = inr config.
Hypothesis connected : connect_result d config = None.

(** X15. When the listing statement yields at least one row and every row
    has two cells, [list_sql_tables] closes cursor and connection and
    returns the rows in the same comma-and-line-feed form as the other
    operations, under the fixed header "Schema,Table" (the column names the
    driver reports are not used). *)
Theorem list_sql_tables_csv cur rows :
  execute_result d tables_sql None = inr cur →
  fetch_result cur = inr rows → rows ≠ [] →
  forallb is_pair rows = true →
  list_sql_tables env d
  = ([EConnect config true; ECursor; EExecute tables_sql None; EFetchall;
      ECursorClose; EConnClose],
     Returned (csv_text ["Schema"; "Table"] rows)).
Proof.
  intros Hexec Hfetch Hne Hpairs. unfold list_sql_tables. rewrite resolved.
  unfold_body. rewrite connected, Hexec, Hfetch.
  destruct rows as [|row rows]; [done|].
  by rewrite (table_lines_pairs _ Hpairs).
Qed.

(** X16. For a name the validator accepts and a table with at least one
    column and one row, [read_table_preview] does exactly what [execute_sql]
    does with the statement "SELECT TOP 100 * FROM " followed by the quoted
    name: the same driver calls and the same text. *)
Theorem read_table_preview_as_execute_sql
        table_name safe_table cur c cs row rows :
  validate_table_name table_name = inr safe_table →
  execute_result d ("SELECT TOP 100 * FROM " +:+ safe_table) None = inr cur →
  description cur = Some (c :: cs) →
  fetch_result cur = inr (row :: rows) →
  read_table_preview env d table_name
  = execute_sql env d ("SELECT TOP 100 * FROM " +:+ safe_table).
Proof.
  intros Hvalid Hexec Hdesc Hfetch. unfold read_table_preview, execute_sql.
  rewrite resolved. unfold_body.
  rewrite Hvalid. simpl. rewrite connected, Hexec. simpl.
  rewrite Hdesc. simpl. by rewrite Hfetch.
Qed.

(** X18. [count_user_logins] reports the first cell of the first row
    fetched and nothing else of the result; cursor and connection are
    closed.  When the statement yields no row, it returns the text of the
    [TypeError] raised by subscripting [None] and closes nothing. *)
Theorem count_user_logins_first_cell user_id year cur :
  execute_result d count_sql (Some [SStr user_id; SStr (str_of_arg year)])
  = inr cur →
  (∀ count cells rows,
     fetch_result cur = inr ((count :: cells) :: rows) →
     count_user_logins env d user_id year
     = ([EConnect config true; ECursor;
         EExecute count_sql (Some [SStr user_id; SStr (str_of_arg year)]);
         EFetchone; ECursorClose; EConnClose],
        Returned (user_id +:+ " appeared " +:+ py_str count +:+ " times in "
                  +:+ str_of_arg year)))
  ∧ (fetch_result cur = inr [] →
     count_user_logins env d user_id year
     = ([EConnect config true; ECursor;
         EExecute count_sql (Some [SStr user_id; SStr (str_of_arg year)]);
         EFetchone],
        Returned "Error: 'NoneType' object is not subscriptable")).
Proof.
  intros Hexec. unfold count_user_logins. rewrite resolved. unfold_body.
  rewrite connected, Hexec. simpl.
  split; [intros count cells rows Hfetch|intros Hfetch]; by rewrite Hfetch.
Qed.

End FormatTheorems.

(** X17. The text built from a result set has exactly one line feed per
    row, provided no column name and no rendering of a cell holds a line
    feed (cells are written as they are, nothing is escaped). *)
Theorem csv_text_line_feeds columns rows :
  Forall (fun name => count_char "010" name = O) columns →
  Forall (Forall (fun cell => count_char "010" (py_str cell) = O)) rows →
  count_char "010" (csv_text columns rows) = length rows.
Proof.
  intros Hcols Hrows. rewrite csv_text_lines, count_char_append.
  rewrite (count_char_join "010" "," columns eq_refl Hcols). simpl.
  induction Hrows as [|row rows Hrow Hrows IH]; [done|].
  cbn [following_lines length]. rewrite !count_char_append, IH.
  rewrite (count_char_join "010" "," (map py_str row) eq_refl);
    [done|]. by apply Forall_map.
Qed.

Lemma list_sql_tables_csv_witness :
  list_sql_tables env_credentials db_two_tables
  = ([EConnect config_credentials true; ECursor; EExecute tables_sql None;
      EFetchall; ECursorClose; EConnClose],
     Returned ("Schema,Table" +:+ nl +:+ "dbo,accounts" +:+ nl +:+ "dbo,users")).
Proof.
  apply (list_sql_tables_csv env_credentials db_two_tables config_credentials
           get_db_config_credentials eq_refl
           (cursor_of ["TABLE_SCHEMA"; "TABLE_NAME"]
              [[SStr "dbo"; SStr "accounts"]; [SStr "dbo"; SStr "users"]])
           [[SStr "dbo"; SStr "accounts"]; [SStr "dbo"; SStr "users"]]);
    [reflexivity | reflexivity | discriminate | reflexivity].
Defined.

Lemma read_table_preview_as_execute_sql_witness :
  read_table_preview env_credentials db_two_by_two "dbo.accounts"
  = execute_sql env_credentials db_two_by_two
      "SELECT TOP 100 * FROM [dbo].[accounts]".
Proof.
  apply (read_table_preview_as_execute_sql env_credentials db_two_by_two
           config_credentials get_db_config_credentials eq_refl
           "dbo.accounts" "[dbo].[accounts]"
           (cursor_of ["a"; "b"] [[SInt 1; SInt 2]; [SInt 3; SInt 4]])
           "a" ["b"] [SInt 1; SInt 2] [[SInt 3; SInt 4]]);
    reflexivity.
Defined.

Lemma count_user_logins_first_cell_witness :
  count_user_logins env_credentials db_three_logins "alice" (AInt 2023)
  = ([EConnect config_credentials true; ECursor;
      EExecute count_sql (Some [SStr "alice"; SStr "2023"]);
      EFetchone; ECursorClose; EConnClose],
     Returned "alice appeared 3 times in 2023").
Proof.
  apply (proj1 (count_user_logins_first_cell env_credentials db_three_logins
                  config_credentials get_db_config_credentials eq_refl
                  "alice" (AInt 2023) (cursor_of ["appearances"] [[SInt 3]])
                  eq_refl) (SInt 3) [] []).
  reflexivity.
Defined.

Lemma csv_text_line_feeds_witness :
  count_char "010"
    (csv_text ["a"; "b"] [[SInt 1; SInt 2]; [SInt 3; SInt 4]]) = 2%nat.
Proof.
  apply (csv_text_line_feeds ["a"; "b"] [[SInt 1; SInt 2]; [SInt 3; SInt 4]]);
    repeat constructor.
Defined.
